(** * Frame extraction from video: a model of [video_processor.py]

    The development embeds the time/frame mapper, the extraction loop of the
    direct (OpenCV) backend, the numbering scheme of the ffmpeg backend, the
    backend selection and the fast preview fetch of [VideoProcessor], and
    states the properties of the specification over that embedding.

    Conventions of the embedding:
    - Python [str] is a list of ASCII characters ([pystr]);
    - Python [int] is [Z];
    - Python [float] is an exact rational ([Q]) extended with the two
      infinities and NaN ([pyfloat]): binary64 rounding is not modelled, the
      special values are, because [int()] raises on them;
    - an exception is a value of [exn]; a call that may raise returns
      [result]. *)

From Stdlib Require Import ZArith NArith QArith Qround Ascii String List Bool Lia Lqa.
Import ListNotations.

Local Open Scope Z_scope.

(** ** Python strings *)

Module PyStr.

Definition pystr := list ascii.

Definition lit (s : string) : pystr := list_ascii_of_string s.

Definition code (c : ascii) : N := N_of_ascii c.

(** [str.replace(old, new)] for one-character patterns. *)
Definition replace_char (old new : ascii) (s : pystr) : pystr :=
  map (fun c => if Ascii.eqb c old then new else c) s.

(** [str.split(sep)] for a one-character separator: every occurrence
    splits, empty fields are kept, the empty string gives one empty field. *)
Fixpoint split_on (sep : ascii) (s : pystr) : list pystr :=
  match s with
  | [] => [[]]
  | c :: r =>
      if Ascii.eqb c sep then [] :: split_on sep r
      else match split_on sep r with
           | h :: t => (c :: h) :: t
           | [] => [[c]]
           end
  end.

Definition is_upper (c : ascii) : bool := (65 <=? code c)%N && (code c <=? 90)%N.

Definition lower_char (c : ascii) : ascii :=
  if is_upper c then ascii_of_N (code c + 32) else c.

(** [str.lower()] on ASCII text. *)
Definition lower (s : pystr) : pystr := map lower_char s.

(** The ASCII characters Python treats as white space. *)
Definition is_space (c : ascii) : bool :=
  ((9 <=? code c)%N && (code c <=? 13)%N)
  || ((28 <=? code c)%N && (code c <=? 32)%N).

Fixpoint lstrip (s : pystr) : pystr :=
  match s with
  | c :: r => if is_space c then lstrip r else s
  | [] => []
  end.

Definition rstrip (s : pystr) : pystr := rev (lstrip (rev s)).

Definition strip (s : pystr) : pystr := rstrip (lstrip s).

Fixpoint eqb (a b : pystr) : bool :=
  match a, b with
  | [], [] => true
  | x :: a', y :: b' => Ascii.eqb x y && eqb a' b'
  | _, _ => false
  end.

(** Cut [s] at the first character satisfying [p]: the text before it and,
    when there is such a character, the text after it. *)
Fixpoint break_at (p : ascii -> bool) (s : pystr) : pystr * option pystr :=
  match s with
  | [] => ([], None)
  | c :: r =>
      if p c then ([], Some r)
      else let '(a, b) := break_at p r in (c :: a, b)
  end.

End PyStr.

Import PyStr.

(** ** Python numbers: [int()], [float()], [int(float)], [format(_, '0Nd')] *)

Module PyNum.

Inductive pyfloat : Type :=
| Fin (q : Q)
| Inf (negative : bool)
| NaN.

Definition is_digit (c : ascii) : bool := (48 <=? code c)%N && (code c <=? 57)%N.

Definition digit_val (c : ascii) : N := (code c - 48)%N.

(** A [digitpart] of the Python grammar: decimal digits, single underscores
    allowed between two digits.  Returns the value and the number of digits.
    [prev] tells whether the previous character was a digit. *)
Fixpoint digitpart_go (acc : N) (cnt : nat) (prev : bool) (s : pystr)
  : option (N * nat) :=
  match s with
  | [] => if prev then Some (acc, cnt) else None
  | c :: r =>
      if is_digit c then digitpart_go (10 * acc + digit_val c)%N (S cnt) true r
      else if Ascii.eqb c "_" && prev then digitpart_go acc cnt false r
      else None
  end.

Definition digitpart (s : pystr) : option (N * nat) := digitpart_go 0%N 0%nat false s.

(** An optional leading sign: [true] for a minus. *)
Definition split_sign (s : pystr) : bool * pystr :=
  match s with
  | c :: r =>
      if Ascii.eqb c "-" then (true, r)
      else if Ascii.eqb c "+" then (false, r)
      else (false, s)
  | [] => (false, [])
  end.

(** [int(s)] in base 10; [None] stands for [ValueError]. *)
Definition py_int (s : pystr) : option Z :=
  let '(neg, body) := split_sign (strip s) in
  match digitpart body with
  | Some (v, _) => Some (if neg then - Z.of_N v else Z.of_N v)
  | None => None
  end.

Definition ten_pow (n : nat) : Q := inject_Z (10 ^ Z.of_nat n).

(** The mantissa [digitpart], [digitpart "." [digitpart]] or
    ["." digitpart] of a float literal. *)
Definition mantissa (s : pystr) : option Q :=
  match break_at (fun c => Ascii.eqb c ".") s with
  | (ip, None) =>
      match digitpart ip with
      | Some (v, _) => Some (inject_Z (Z.of_N v))
      | None => None
      end
  | (ip, Some fp) =>
      match ip, fp with
      | [], [] => None
      | _, [] =>
          match digitpart ip with
          | Some (v, _) => Some (inject_Z (Z.of_N v))
          | None => None
          end
      | [], _ =>
          match digitpart fp with
          | Some (w, k) => Some (inject_Z (Z.of_N w) / ten_pow k)%Q
          | None => None
          end
      | _, _ =>
          match digitpart ip, digitpart fp with
          | Some (v, _), Some (w, k) =>
              Some (inject_Z (Z.of_N v) + inject_Z (Z.of_N w) / ten_pow k)%Q
          | _, _ => None
          end
      end
  end.

Definition is_exp_mark (c : ascii) : bool := Ascii.eqb c "e" || Ascii.eqb c "E".

(** A [floatnumber]: a mantissa with an optional signed decimal exponent. *)
Definition float_number (s : pystr) : option Q :=
  match break_at is_exp_mark s with
  | (m, None) => mantissa m
  | (m, Some e) =>
      let '(eneg, ed) := split_sign e in
      match mantissa m, digitpart ed with
      | Some q, Some (n, _) =>
          Some (if eneg then q / ten_pow (N.to_nat n) else q * ten_pow (N.to_nat n))%Q
      | _, _ => None
      end
  end.

(** [float(s)]; [None] stands for [ValueError]. *)
Definition py_float (s : pystr) : option pyfloat :=
  let '(neg, body) := split_sign (strip s) in
  let word := lower body in
  if PyStr.eqb word (lit "inf") || PyStr.eqb word (lit "infinity") then Some (Inf neg)
  else if PyStr.eqb word (lit "nan") then Some NaN
  else match float_number body with
       | Some q => Some (Fin (if neg then - q else q)%Q)
       | None => None
       end.

(** Truncation toward zero, as [int(x)] does on a finite float. *)
Definition Qtrunc (q : Q) : Z :=
  if Qle_bool 0 q then Qfloor q else Qceiling q.

(** Float floor division and remainder, [a // b] and [a % b]. *)
Definition py_floordiv (a b : Q) : Q := inject_Z (Qfloor (a / b)).

Definition py_mod (a b : Q) : Q := (a - b * inject_Z (Qfloor (a / b)))%Q.

Definition Qis_zero (q : Q) : bool := Qeq_bool q 0.

Definition Qis_neg (q : Q) : bool := negb (Qle_bool 0 q).

Definition f_add (a b : pyfloat) : pyfloat :=
  match a, b with
  | NaN, _ | _, NaN => NaN
  | Fin x, Fin y => Fin (x + y)%Q
  | Inf s, Fin _ | Fin _, Inf s => Inf s
  | Inf s, Inf t => if Bool.eqb s t then Inf s else NaN
  end.

Definition f_mul (a b : pyfloat) : pyfloat :=
  match a, b with
  | NaN, _ | _, NaN => NaN
  | Fin x, Fin y => Fin (x * y)%Q
  | Inf s, Fin y | Fin y, Inf s =>
      if Qis_zero y then NaN else Inf (xorb s (Qis_neg y))
  | Inf s, Inf t => Inf (xorb s t)
  end.

(** Decimal digits of a natural number, most significant first.  [fuel]
    bounds the number of digits. *)
Fixpoint digits_fuel (fuel : nat) (n : N) : pystr :=
  match fuel with
  | O => []
  | S f =>
      if (n <? 10)%N then [ascii_of_N (48 + n)]
      else digits_fuel f (n / 10)%N ++ [ascii_of_N (48 + n mod 10)]
  end.

Definition digits (n : N) : pystr := digits_fuel (S (N.to_nat (N.log2 n))) n.

Definition zero_pad (width : nat) (s : pystr) : pystr :=
  repeat "0"%char (width - length s)%nat ++ s.

(** [format(z, '0{width}d')]: sign-aware zero padding. *)
Definition fmt_d (width : nat) (z : Z) : pystr :=
  if z <? 0 then "-"%char :: zero_pad (width - 1) (digits (Z.to_N (- z)))
  else zero_pad width (digits (Z.to_N z)).

End PyNum.

Import PyNum.

(** ** Exceptions *)

Inductive exn : Type :=
| ValueError
| IndexError
| OverflowError
| RuntimeError.

Inductive result (A : Type) : Type :=
| Ret (a : A)
| Raise (e : exn).

Arguments Ret {A} a.
Arguments Raise {A} e.

(** [int(x)] on a float: NaN is a [ValueError], an infinity an
    [OverflowError]. *)
Definition int_of_float (x : pyfloat) : result Z :=
  match x with
  | Fin q => Ret (Qtrunc q)
  | Inf _ => Raise OverflowError
  | NaN => Raise ValueError
  end.

Definition bind {A B : Type} (m : result A) (k : A -> result B) : result B :=
  match m with
  | Ret a => k a
  | Raise e => Raise e
  end.

Notation "x <- m ;; k" := (bind m (fun x => k))
  (at level 61, m at next level, right associativity).

(** A builtin that signals failure with [ValueError]. *)
Definition or_value_error {A : Type} (o : option A) : result A :=
  match o with
  | Some a => Ret a
  | None => Raise ValueError
  end.

(** Float comparison: every comparison with NaN is false. *)
Definition f_leb (a b : pyfloat) : bool :=
  match a, b with
  | NaN, _ | _, NaN => false
  | Fin x, Fin y => Qle_bool x y
  | Inf s, Inf t => s || negb t
  | Inf s, Fin _ => s
  | Fin _, Inf t => negb t
  end.

Definition f_ltb (a b : pyfloat) : bool :=
  match a, b with
  | NaN, _ | _, NaN => false
  | Fin x, Fin y => negb (Qle_bool y x)
  | Inf s, Inf t => s && negb t
  | Inf s, Fin _ => s
  | Fin _, Inf t => negb t
  end.

(** ** The video handle's metadata and the time/frame mapper *)

Record video_info : Type := {
  total_frames : Z;
  fps : Q;
  width : Z;
  height : Z
}.

Definition dash : pystr := lit "-".

(** [VideoProcessor.frame_to_timestamp]. *)
Definition frame_to_timestamp (v : video_info) (frame_number : Z) : pystr :=
  if Qle_bool (fps v) 0 then lit "00-00-00-000"
  else
    let time_seconds := (inject_Z frame_number / fps v)%Q in
    let hours := Qtrunc (py_floordiv time_seconds (inject_Z 3600)) in
    let minutes :=
      Qtrunc (py_floordiv (py_mod time_seconds (inject_Z 3600)) (inject_Z 60)) in
    let seconds := Qtrunc (py_mod time_seconds (inject_Z 60)) in
    let milliseconds :=
      Qtrunc (py_mod time_seconds (inject_Z 1) * inject_Z 1000)%Q in
    fmt_d 2 hours ++ dash ++ fmt_d 2 minutes ++ dash
      ++ fmt_d 2 seconds ++ dash ++ fmt_d 3 milliseconds.

(** The body of the [try] block of [timestamp_to_frame]: [Ret (Some n)]
    when it executes [return n], [Ret None] when it falls through. *)
Definition timestamp_to_frame_try (v : video_info) (timestamp_str : pystr)
  : result (option Z) :=
  let time_parts := split_on ":" timestamp_str in
  match time_parts with
  | p0 :: p1 :: p2 :: _ =>
      hours <- or_value_error (py_int p0) ;;
      minutes <- or_value_error (py_int p1) ;;
      seconds <- or_value_error (py_float p2) ;;
      let total_seconds :=
        f_add (Fin (inject_Z (hours * 3600 + minutes * 60))) seconds in
      frame_number <- int_of_float (f_mul total_seconds (Fin (fps v))) ;;
      Ret (Some (Z.min frame_number (total_frames v - 1)))
  | _ => Ret None
  end.

(** [VideoProcessor.timestamp_to_frame]: [ValueError] and [IndexError] are
    caught, every other exception propagates. *)
Definition timestamp_to_frame (v : video_info) (timestamp_str : pystr) : result Z :=
  let timestamp_str := replace_char "-" ":" timestamp_str in
  match timestamp_to_frame_try v timestamp_str with
  | Ret (Some n) => Ret n
  | Ret None => Ret 0
  | Raise ValueError | Raise IndexError => Ret 0
  | Raise e => Raise e
  end.

(** [validate_time_format]: every failure of [int()] or [float()] is caught
    and gives [False]. *)
Definition validate_time_format (time_str : pystr) : bool :=
  let time_str := replace_char "-" ":" time_str in
  match split_on ":" time_str with
  | [p0; p1; p2] =>
      match py_int p0, py_int p1, py_float p2 with
      | Some hours, Some minutes, Some seconds =>
          (0 <=? hours) && (hours <=? 23)
          && (0 <=? minutes) && (minutes <=? 59)
          && f_leb (Fin 0) seconds && f_ltb seconds (Fin (inject_Z 60))
      | _, _, _ => false
      end
  | _ => false
  end.

(** ** Small pieces of the Python runtime used by the extraction engine *)

(** [x or default] on an optional string: [None] and the empty string are
    both false. *)
Definition str_or (x : option pystr) (default : pystr) : pystr :=
  match x with
  | Some (c :: r) => c :: r
  | _ => default
  end.

(** [x or default] on an optional integer: [None] and [0] are both false. *)
Definition int_or (x : option Z) (default : Z) : Z :=
  match x with
  | Some n => if n =? 0 then default else n
  | None => default
  end.

(** [if x:] on an optional string. *)
Definition truthy (x : option pystr) : bool :=
  match x with
  | Some (_ :: _) => true
  | _ => false
  end.

(** [str(n)] on an integer. *)
Definition py_str (n : Z) : pystr := fmt_d 0 n.

(** [len(range(start, stop, step))]; a zero step is a [ValueError]. *)
Definition range_len (start stop step : Z) : result Z :=
  if step =? 0 then Raise ValueError
  else if 0 <? step then
    Ret (if start <? stop then (stop - start - 1) / step + 1 else 0)
  else
    Ret (if stop <? start then (start - stop - 1) / (- step) + 1 else 0).

(** [os.path.join(a, b)] on POSIX paths, for a relative [b]. *)
Definition path_join (a b : pystr) : pystr :=
  match rev a with
  | [] => b
  | c :: _ => if Ascii.eqb c "/" then a ++ b else a ++ lit "/" ++ b
  end.

Fixpoint starts_with (pre s : pystr) : bool :=
  match pre, s with
  | [], _ => true
  | x :: pre', y :: s' => Ascii.eqb x y && starts_with pre' s'
  | _ :: _, [] => false
  end.

(** [s.endswith(suffix)]. *)
Definition endswith (s suffix : pystr) : bool := starts_with (rev suffix) (rev s).

(** [os.path.splitext(name)[0]]: the text before the last dot; a name whose
    only dots are leading ones has no extension. *)
Definition splitext_stem (name : pystr) : pystr :=
  match break_at (fun c => Ascii.eqb c ".") (rev name) with
  | (_, Some before) =>
      if forallb (fun c => Ascii.eqb c ".") before then name else rev before
  | (_, None) => name
  end.

(** Lexicographic order on strings, the order of [sorted]. *)
Fixpoint str_leb (a b : pystr) : bool :=
  match a, b with
  | [], _ => true
  | _ :: _, [] => false
  | x :: a', y :: b' =>
      if (code x <? code y)%N then true
      else if (code y <? code x)%N then false
      else str_leb a' b'
  end.

Section Sorted.

Context {A : Type} (key : A -> pystr).

Fixpoint insert_sorted (x : A) (l : list A) : list A :=
  match l with
  | [] => [x]
  | y :: r => if str_leb (key x) (key y) then x :: l else y :: insert_sorted x r
  end.

(** [sorted(l)] by [key]. *)
Definition sorted (l : list A) : list A := fold_right insert_sorted [] l.

End Sorted.

(** ** The extraction engine *)

(** The keyword arguments PIL's [Image.save] is called with. *)
Inductive encoding : Type :=
| PNG (optimize : bool) (compress_level : Z)
| JPEG (jpeg_quality : Z) (subsampling : Z) (optimize : bool)
| WEBP (webp_quality : Z) (webp_lossless : bool) (method : Z).

(** A file on disk: its path, how it was encoded (direct backend) and the
    absolute index of the video frame whose picture it holds. *)
Record saved_file : Type := {
  file_path : pystr;
  file_encoding : option encoding;
  file_frame : Z
}.

(** One call of [progress_callback(current, total, frame_path)]. *)
Record progress_event : Type := {
  ev_current : Z;
  ev_total : Z;
  ev_path : pystr
}.

(** The arguments of [extract_frames]. *)
Record extract_args : Type := {
  output_dir : pystr;
  start_time : pystr;
  end_time : option pystr;
  frame_interval : Z;
  progress_callback : bool;
  use_threading : bool;
  output_format : option pystr;
  quality : option Z;
  lossless : bool;
  png_compress_level : Z;
  backend : pystr;
  hwaccel : option pystr
}.

(** What the engine observes of the outside world during one call. *)
Record environment : Type := {
  (** [self.cap] is set and [isOpened()] *)
  cap_opened : bool;
  (** the answer of the n-th [shutil.which('ffmpeg') is not None] of the call *)
  ffmpeg_on_path : nat -> bool;
  (** whether [cap.read()] succeeds in the loop iteration of frame [i]; the
      loop reads exactly once per iteration, so this is the sequence of
      read outcomes *)
  read_ok : Z -> bool;
  (** whether PIL saves the picture of frame [i] without an exception *)
  save_ok : Z -> bool;
  (** the absolute indices of the frames the ffmpeg process decodes between
      [-ss] and [-to], in order *)
  ffmpeg_decoded : list Z;
  (** the exit status of the ffmpeg process *)
  ffmpeg_returncode : Z;
  (** whether [os.replace] of a temporary file succeeds *)
  replace_ok : pystr -> bool
}.

(** The dictionary [extract_frames] returns (without the wall-clock
    [extract_duration]). *)
Record extraction : Type := {
  total_frames_to_extract : Z;
  extracted_count : Z;
  failed_count : Z;
  output_directory : pystr;
  start_frame : Z;
  end_frame : Z;
  result_frame_interval : Z
}.

(** The outcome of a run: the returned dictionary and the effects. *)
Record run : Type := {
  summary : extraction;
  written : list saved_file;
  reported : list progress_event;
  (** the frames handed to [save_and_report], in order *)
  dispatched : list Z
}.

Definition dot : pystr := lit ".".

(** The format-specific branch of [save_and_report]. *)
Definition save_encoding (ext : pystr) (a : extract_args) : encoding :=
  if PyStr.eqb ext (lit "png") then
    PNG true (Z.max 0 (Z.min 9 (png_compress_level a)))
  else if PyStr.eqb ext (lit "jpg") || PyStr.eqb ext (lit "jpeg") then
    JPEG (Z.max 1 (Z.min 100 (int_or (quality a) 95))) 0 true
  else if PyStr.eqb ext (lit "webp") then
    WEBP (Z.max 1 (Z.min 100 (int_or (quality a) (if lossless a then 100 else 95))))
         (lossless a) 4
  else
    PNG true 9.

(** The mutable locals of the decode loop. *)
Record loop_state : Type := {
  st_extracted : Z;
  st_failed : Z;
  st_progress : Z;
  (** the results [(ok, path)] of the submitted tasks, in submission order *)
  st_futures : list (bool * pystr);
  st_written : list saved_file;
  st_reported : list progress_event;
  st_dispatched : list Z
}.

Definition loop_init : loop_state :=
  {| st_extracted := 0; st_failed := 0; st_progress := 0; st_futures := [];
     st_written := []; st_reported := []; st_dispatched := [] |}.

Definition report (a : extract_args) (current total : Z) (p : pystr)
  (evs : list progress_event) : list progress_event :=
  if progress_callback a
  then evs ++ [{| ev_current := current; ev_total := total; ev_path := p |}]
  else evs.

Section DirectBackend.

Variable v : video_info.
Variable env : environment.
Variable a : extract_args.
Variable first_frame : Z.
Variable total : Z.

Definition frame_ext : pystr := lower (str_or (output_format a) (lit "png")).

Definition frame_path (current_frame_num : Z) : pystr :=
  path_join (output_dir a) (frame_to_timestamp v current_frame_num ++ dot ++ frame_ext).

(** [save_and_report(path, img)] on the picture of frame [i]: the files
    after the call and the returned [(ok, path)]. *)
Definition save_and_report (i : Z) (path : pystr) (files : list saved_file)
  : list saved_file * (bool * pystr) :=
  if save_ok env i then
    (files ++ [{| file_path := path;
                  file_encoding := Some (save_encoding frame_ext a);
                  file_frame := i |}],
     (true, path))
  else (files, (false, path)).

(** One iteration of [while current_frame_num <= end_frame]. *)
Definition loop_body (current_frame_num : Z) (st : loop_state) : loop_state :=
  if negb (read_ok env current_frame_num) then
    {| st_extracted := st_extracted st; st_failed := st_failed st + 1;
       st_progress := st_progress st; st_futures := st_futures st;
       st_written := st_written st; st_reported := st_reported st;
       st_dispatched := st_dispatched st |}
  else if (current_frame_num - first_frame) mod (Z.max 1 (frame_interval a)) =? 0 then
    let filepath := frame_path current_frame_num in
    let '(files, (ok, p)) := save_and_report current_frame_num filepath (st_written st) in
    if use_threading a then
      {| st_extracted := st_extracted st; st_failed := st_failed st;
         st_progress := st_progress st;
         st_futures := st_futures st ++ [(ok, p)];
         st_written := files; st_reported := st_reported st;
         st_dispatched := st_dispatched st ++ [current_frame_num] |}
    else if ok then
      {| st_extracted := st_extracted st + 1; st_failed := st_failed st;
         st_progress := st_progress st + 1; st_futures := st_futures st;
         st_written := files;
         st_reported := report a (st_progress st + 1) total p (st_reported st);
         st_dispatched := st_dispatched st ++ [current_frame_num] |}
    else
      {| st_extracted := st_extracted st; st_failed := st_failed st + 1;
         st_progress := st_progress st; st_futures := st_futures st;
         st_written := files; st_reported := st_reported st;
         st_dispatched := st_dispatched st ++ [current_frame_num] |}
  else st.

(** The [while] loop with [n] iterations left, [current_frame_num] growing
    by one in each. *)
Fixpoint decode_loop (n : nat) (current_frame_num : Z) (st : loop_state) : loop_state :=
  match n with
  | O => st
  | S n' => decode_loop n' (current_frame_num + 1) (loop_body current_frame_num st)
  end.

(** One iteration of [for future in futures]. *)
Definition collect (st : loop_state) (fut : bool * pystr) : loop_state :=
  let '(ok, p) := fut in
  {| st_extracted := if ok then st_extracted st + 1 else st_extracted st;
     st_failed := if ok then st_failed st else st_failed st + 1;
     st_progress := st_progress st + 1;
     st_futures := st_futures st;
     st_written := st_written st;
     st_reported := report a (st_progress st + 1) total p (st_reported st);
     st_dispatched := st_dispatched st |}.

(** The direct (OpenCV) backend: the tail of [extract_frames] after the
    backend has been chosen. *)
Definition extract_frames_opencv (last_frame : Z) : run :=
  let st := decode_loop (Z.to_nat (last_frame - first_frame + 1)) first_frame loop_init in
  let st := fold_left collect (st_futures st) st in
  {| summary :=
       {| total_frames_to_extract := total;
          extracted_count := st_extracted st;
          failed_count := st_failed st;
          output_directory := output_dir a;
          start_frame := first_frame;
          end_frame := last_frame;
          result_frame_interval := frame_interval a |};
     written := st_written st;
     reported := st_reported st;
     dispatched := st_dispatched st |}.

End DirectBackend.

(** ** The process-filter (ffmpeg) backend *)

(** The part of ffmpeg's behaviour the backend relies on.  The [select]
    filter numbers the frames it receives [n = 0, 1, 2, ...] and keeps the
    frames whose expression [not(mod(n, stride))] is non-zero; the [image2]
    muxer writes the kept frames to consecutively numbered files, the first
    one numbered [-start_number], named after the pattern [%010d.ext].  Each
    produced file is paired with the absolute index of the frame it holds. *)
Fixpoint ffmpeg_image2 (ext : pystr) (stride n number : Z) (decoded : list Z)
  : list (pystr * Z) :=
  match decoded with
  | [] => []
  | f :: r =>
      if n mod stride =? 0
      then (fmt_d 10 number ++ dot ++ ext, f)
             :: ffmpeg_image2 ext stride (n + 1) (number + 1) r
      else ffmpeg_image2 ext stride (n + 1) number r
  end.

(** [VideoProcessor._ffmpeg_available], at the [lookup]-th query of the call. *)
Definition _ffmpeg_available (env : environment) (lookup : nat) : bool :=
  ffmpeg_on_path env lookup.

(** The output-codec arguments of the command line. *)
Definition ffmpeg_codec_args (ext : pystr) (a : extract_args) : list pystr :=
  if PyStr.eqb ext (lit "png") then
    [lit "-c:v"; lit "png"; lit "-compression_level";
     py_str (Z.max 0 (Z.min 9 (png_compress_level a)))]
  else if PyStr.eqb ext (lit "jpg") || PyStr.eqb ext (lit "jpeg") then
    [lit "-c:v"; lit "mjpeg"; lit "-q:v";
     py_str (Z.max 2 (Z.min 31 (int_or (quality a) 2)))]
  else if PyStr.eqb ext (lit "webp") then
    [lit "-c:v"; lit "libwebp"]
    ++ (if lossless a
        then [lit "-lossless"; lit "1"; lit "-compression_level"; lit "4";
              lit "-q:v"; py_str (int_or (quality a) 100)]
        else [lit "-lossless"; lit "0"; lit "-compression_level"; lit "4";
              lit "-q:v"; py_str (Z.max 1 (Z.min 100 (int_or (quality a) 95)))])
  else
    [lit "-c:v"; lit "png"; lit "-compression_level"; lit "9"].

(** The argument vector handed to [subprocess.run]. *)
Definition ffmpeg_command (video_path ext pattern : pystr) (a : extract_args)
  (stride first_frame : Z) : list pystr :=
  [lit "ffmpeg"; lit "-hide_banner"; lit "-loglevel"; lit "error"]
  ++ (match hwaccel a with
      | Some (c :: r) =>
          if PyStr.eqb (c :: r) (lit "auto")
          then [lit "-hwaccel"; lit "auto"]
          else [lit "-hwaccel"; c :: r]
      | _ => [lit "-hwaccel"; lit "auto"]
      end)
  ++ (match start_time a with
      | [] => []
      | t => [lit "-ss"; t]
      end)
  ++ (if truthy (end_time a) then [lit "-to"; str_or (end_time a) []] else [])
  ++ [lit "-i"; video_path]
  ++ [lit "-vf"; lit "select=not(mod(n\," ++ py_str stride ++ lit "))";
      lit "-vsync"; lit "vfr"]
  ++ ffmpeg_codec_args ext a
  ++ [lit "-start_number"; py_str first_frame]
  ++ [lit "-y"; lit "-f"; lit "image2"; pattern].

(** The mutable locals of the renaming loop. *)
Record rename_state : Type := {
  rn_extracted : Z;
  rn_failed : Z;
  rn_progress : Z;
  rn_written : list saved_file;
  rn_reported : list progress_event
}.

Section ProcessBackend.

Variable v : video_info.
Variable env : environment.
Variable a : extract_args.
Variable video_path : pystr.
Variable total : Z.

Definition ffmpeg_ext : pystr := lower (str_or (output_format a) (lit "webp")).

Definition tmp_dir : pystr := path_join (output_dir a) (lit "_ffmpeg_tmp").

(** One iteration of [for fname in files]; [fname] holds frame [held]. *)
Definition rename_body (st : rename_state) (f : pystr * Z) : rename_state :=
  let '(fname, held) := f in
  let failed :=
    {| rn_extracted := rn_extracted st; rn_failed := rn_failed st + 1;
       rn_progress := rn_progress st; rn_written := rn_written st;
       rn_reported := rn_reported st |} in
  match py_int (splitext_stem fname) with
  | None => failed
  | Some index =>
      let timestamp := frame_to_timestamp v index in
      let new_name := timestamp ++ dot ++ ffmpeg_ext in
      let dst := path_join (output_dir a) new_name in
      if replace_ok env (path_join tmp_dir fname) then
        {| rn_extracted := rn_extracted st + 1; rn_failed := rn_failed st;
           rn_progress := rn_progress st + 1;
           rn_written := rn_written st
             ++ [{| file_path := dst; file_encoding := None; file_frame := held |}];
           rn_reported := report a (rn_progress st + 1) total dst (rn_reported st) |}
      else failed
  end.

(** [VideoProcessor._extract_frames_ffmpeg]; [lookup] counts the earlier
    queries for the executable in this call. *)
Definition _extract_frames_ffmpeg (lookup : nat) (first_frame last_frame : Z)
  : result (run * list pystr) :=
  if negb (_ffmpeg_available env lookup) then Raise RuntimeError
  else
    let ext := ffmpeg_ext in
    let pattern := path_join tmp_dir (lit "%010d." ++ ext) in
    let stride := Z.max 1 (frame_interval a) in
    let cmd := ffmpeg_command video_path ext pattern a stride first_frame in
    if negb (ffmpeg_returncode env =? 0) then Raise RuntimeError
    else
      let produced := ffmpeg_image2 ext stride 0 first_frame (ffmpeg_decoded env) in
      let files :=
        sorted fst (filter (fun f => endswith (lower (fst f)) (dot ++ ext)) produced) in
      let st :=
        fold_left rename_body files
          {| rn_extracted := 0; rn_failed := 0; rn_progress := 0;
             rn_written := []; rn_reported := [] |} in
      Ret ({| summary :=
                {| total_frames_to_extract := total;
                   extracted_count := rn_extracted st;
                   failed_count := rn_failed st;
                   output_directory := output_dir a;
                   start_frame := first_frame;
                   end_frame := last_frame;
                   result_frame_interval := frame_interval a |};
              written := rn_written st;
              reported := rn_reported st;
              dispatched := [] |}, cmd).

End ProcessBackend.

(** ** [extract_frames] *)

(** Which routine produced the outcome of the call. *)
Inductive outcome : Type :=
| ByOpenCV (r : run)
| ByFFmpeg (r : run) (cmd : list pystr).

(** The checks and the frame range computed before a backend is chosen:
    [(start_frame, end_frame, total_frames_to_extract)]. *)
Definition plan (v : video_info) (env : environment) (a : extract_args)
  : result (Z * Z * Z) :=
  if negb (cap_opened env) then Raise ValueError
  else
    s <- timestamp_to_frame v (start_time a) ;;
    e <- (if truthy (end_time a)
          then timestamp_to_frame v (str_or (end_time a) [])
          else Ret (total_frames v - 1)) ;;
    let s := Z.max 0 s in
    let e := Z.min e (total_frames v - 1) in
    if e <=? s then Raise ValueError
    else
      n <- range_len s (e + 1) (frame_interval a) ;;
      Ret (s, e, n).

(** [chosen_backend] and the number of queries for the executable made so
    far. *)
Definition choose_backend (env : environment) (a : extract_args) : pystr * nat :=
  if PyStr.eqb (backend a) (lit "auto")
  then (if _ffmpeg_available env 0 then lit "ffmpeg" else lit "opencv", 1%nat)
  else (backend a, 0%nat).

(** [VideoProcessor.extract_frames]. *)
Definition extract_frames (v : video_info) (video_path : pystr)
  (env : environment) (a : extract_args) : result outcome :=
  p <- plan v env a ;;
  let '(s, e, n) := p in
  let '(chosen_backend, lookups) := choose_backend env a in
  if PyStr.eqb chosen_backend (lit "ffmpeg") then
    r <- _extract_frames_ffmpeg v env a video_path n lookups s e ;;
    Ret (ByFFmpeg (fst r) (snd r))
  else
    Ret (ByOpenCV (extract_frames_opencv v env a s n e)).

(** ** The decode cursor and the fast preview fetch *)

(** The operations of [cv2.VideoCapture] the preview uses.  [frame_at c i]
    is the picture of the frame with absolute index [i], when there is one. *)
Class Cursor (C Frame : Type) : Type := {
  frame_at : C -> Z -> option Frame;
  get_pos : C -> Z;
  set_pos : C -> Z -> C;
  read : C -> option Frame * C;
  grab : C -> C
}.

(** The contract of the cursor, as [get_frame_at_position] and
    [extract_frames] rely on it: the position is the index of the frame the
    next [read] decodes, [read] and [grab] move it forward by one frame, and
    seeking changes nothing but the position. *)
Class CursorLaws (C Frame : Type) `{Cursor C Frame} : Prop := {
  get_set : forall c p, get_pos (set_pos c p) = p;
  frame_set : forall c p i, frame_at (set_pos c p) i = frame_at c i;
  read_frame : forall c, fst (read c) = frame_at c (get_pos c);
  read_video : forall c i, frame_at (snd (read c)) i = frame_at c i;
  grab_video : forall c i, frame_at (grab c) i = frame_at c i;
  read_pos : forall c f, frame_at c (get_pos c) = Some f ->
                         get_pos (snd (read c)) = get_pos c + 1;
  grab_pos : forall c f, frame_at c (get_pos c) = Some f ->
                         get_pos (grab c) = get_pos c + 1
}.

(** A video held as the list of its frames, with the index of the frame to
    decode next. *)
Record capture (Frame : Type) : Type := {
  cap_frames : list Frame;
  cap_pos : Z
}.

Arguments cap_frames {Frame} c.
Arguments cap_pos {Frame} c.

Definition capture_frame {Frame : Type} (c : capture Frame) (i : Z) : option Frame :=
  if i <? 0 then None else nth_error (cap_frames c) (Z.to_nat i).

#[export] Instance capture_cursor (Frame : Type) : Cursor (capture Frame) Frame := {
  frame_at := capture_frame;
  get_pos := cap_pos;
  set_pos := fun c p => {| cap_frames := cap_frames c; cap_pos := p |};
  read := fun c =>
    match capture_frame c (cap_pos c) with
    | Some f => (Some f, {| cap_frames := cap_frames c; cap_pos := cap_pos c + 1 |})
    | None => (None, c)
    end;
  grab := fun c =>
    match capture_frame c (cap_pos c) with
    | Some _ => {| cap_frames := cap_frames c; cap_pos := cap_pos c + 1 |}
    | None => c
    end
}.

(** Python's [max(a, b)] on floats: [b] when [b > a], else [a]. *)
Definition py_max (x y : Q) : Q := if negb (Qle_bool y x) then y else x.

Section FastFetch.

Context {C Frame : Type} `{Cursor C Frame}.

Fixpoint grab_times (n : nat) (c : C) : C :=
  match n with
  | O => c
  | S n' => grab_times n' (grab c)
  end.

(** [target_frame] of [get_frame_at_seconds_fast]. *)
Definition fast_fps (v : video_info) : Q :=
  if Qis_zero (fps v) then inject_Z 25 else fps v.

Definition fast_target (v : video_info) (seconds : Q) : Z :=
  Qtrunc (py_max 0 seconds * fast_fps v)%Q.

Definition fast_threshold (v : video_info) : Z :=
  Qtrunc (py_max (inject_Z 1) (fast_fps v * inject_Z 2))%Q.

(** The small-forward-jump branch. *)
Definition fast_grab_path (diff : Z) (c : C) : option Frame * C :=
  let steps := Z.max 0 (diff - 1) in
  read (grab_times (Z.to_nat steps) c).

(** The direct-seek branch. *)
Definition fast_seek_path (target_frame : Z) (c : C) : option Frame * C :=
  read (set_pos c target_frame).

(** [VideoProcessor.get_frame_at_seconds_fast]; [cap] is [None] when no
    capture is open. *)
Definition get_frame_at_seconds_fast (v : video_info) (cap : option C) (seconds : Q)
  : option Frame * option C :=
  match cap with
  | None => (None, None)
  | Some c =>
      let target_frame := fast_target v seconds in
      let current_frame := get_pos c in
      let diff := target_frame - current_frame in
      let threshold := fast_threshold v in
      let '(frame, c') :=
        if (0 <? diff) && (diff <=? threshold)
        then fast_grab_path diff c
        else fast_seek_path target_frame c in
      (frame, Some c')
  end.

End FastFetch.

(** ** Other methods of the video handle *)


Section FrameAccess.

Context {C Frame : Type} `{Cursor C Frame}.

(** [VideoProcessor.get_frame_at_time]; [cap] is [None] when no capture is
    open. *)
Definition get_frame_at_time (v : video_info) (cap : option C) (timestamp : pystr)
  : result (option Frame * option C) :=
  match cap with
  | None => Ret (None, None)
  | Some c =>
      frame_num <- timestamp_to_frame v timestamp ;;
      let '(frame, c') := read (set_pos c frame_num) in
      Ret (frame, Some c')
  end.

(** [VideoProcessor.get_frame_at_position]. *)
Definition get_frame_at_position (v : video_info) (cap : option C) (frame_number : Z)
  : option Frame * option C :=
  match cap with
  | None => (None, None)
  | Some c =>
      if (frame_number <? 0) || (total_frames v <=? frame_number) then (None, Some c)
      else
        let '(frame, c') := read (set_pos c frame_number) in
        (frame, Some c')
  end.

End FrameAccess.

Definition colon : pystr := lit ":".

(** [format_duration] of [video_processor.py]. *)
Definition format_duration (seconds : Q) : pystr :=
  let hours := Qtrunc (py_floordiv seconds (inject_Z 3600)) in
  let minutes :=
    Qtrunc (py_floordiv (py_mod seconds (inject_Z 3600)) (inject_Z 60)) in
  let secs := Qtrunc (py_mod seconds (inject_Z 60)) in
  if 0 <? hours
  then fmt_d 2 hours ++ colon ++ fmt_d 2 minutes ++ colon ++ fmt_d 2 secs
  else fmt_d 2 minutes ++ colon ++ fmt_d 2 secs.

(** ** The time helpers of the graphical interface ([main_gui.py]) *)

(** [VideoFrameExtractorGUI.seconds_to_hms]. *)
Definition seconds_to_hms (seconds : Q) : pystr :=
  let seconds := py_max 0 seconds in
  let hours := Qtrunc (py_floordiv seconds (inject_Z 3600)) in
  let minutes :=
    Qtrunc (py_floordiv (py_mod seconds (inject_Z 3600)) (inject_Z 60)) in
  let secs := Qtrunc (py_mod seconds (inject_Z 60)) in
  fmt_d 2 hours ++ colon ++ fmt_d 2 minutes ++ colon ++ fmt_d 2 secs.




(** ** The command line ([main.py]) *)

(** The estimate [extract_frames_cli] prints before it calls
    [extract_frames]; [start] and [end_] are [args.start] and [args.end]. *)
Definition estimated_frames (v : video_info) (start : pystr) (end_ : option pystr)
  (interval : Z) : result Z :=
  start_frame <- (match start with
                  | [] => Ret 0
                  | _ => timestamp_to_frame v start
                  end) ;;
  end_frame <- (if truthy end_
                then timestamp_to_frame v (str_or end_ [])
                else Ret (total_frames v - 1)) ;;
  range_len start_frame (end_frame + 1) interval.

(** ** Helpers of [utils.py] *)

Local Unset Elimination Schemes.

(** A value read by [json.load]; numbers are integers here. *)
Inductive json : Type :=
| JNull
| JBool (b : bool)
| JNum (n : Z)
| JStr (s : pystr)
| JList (l : list json)
| JDict (d : list (pystr * json)).

Local Set Elimination Schemes.

(** The exceptions of the builtins these helpers let through. *)
Inductive builtin_error : Type :=
| TypeError
| AttributeError
| ZeroDivisionError.

Inductive attempt (A : Type) : Type :=
| Done (a : A)
| Fails (e : builtin_error).

Arguments Done {A} a.
Arguments Fails {A} e.

(** A Python [dict] with string keys, in insertion order. *)
Definition dict : Type := list (pystr * json).

(** [d.get(k)]. *)
Fixpoint dict_get (k : pystr) (d : dict) : option json :=
  match d with
  | [] => None
  | (k', x) :: r => if PyStr.eqb k k' then Some x else dict_get k r
  end.

(** [d[k] = x]: an existing key keeps its place, a new one goes last. *)
Fixpoint dict_set (k : pystr) (x : json) (d : dict) : dict :=
  match d with
  | [] => [(k, x)]
  | (k', y) :: r => if PyStr.eqb k k' then (k', x) :: r else (k', y) :: dict_set k x r
  end.

(** [s == j] for a string [s]. *)
Definition json_is_str (s : pystr) (j : json) : bool :=
  match j with
  | JStr t => PyStr.eqb s t
  | _ => false
  end.

(** [sub in s] on strings. *)
Fixpoint is_substring (sub s : pystr) : bool :=
  starts_with sub s ||
  match s with
  | [] => false
  | _ :: r => is_substring sub r
  end.

(** The content of the configuration file: absent, not loadable as JSON,
    or a JSON value. *)
Inductive config_file : Type :=
| Missing
| Unreadable
| Holds (j : json).

Definition default_config : dict :=
  [ (lit "last_video_path", JStr []);
    (lit "last_output_dir", JStr []);
    (lit "default_frame_interval", JNum 1);
    (lit "default_start_time", JStr (lit "00:00:00"));
    (lit "window_geometry", JStr (lit "1000x940+100+100"));
    (lit "recent_files", JList []) ].

(** The loop [for key, value in default_config.items()] on a loaded value;
    [None] when it raises. *)
Definition merge_defaults (config : json) : option json :=
  match config with
  | JDict d =>
      Some (JDict (fold_left (fun c kv =>
                                match dict_get (fst kv) c with
                                | Some _ => c
                                | None => dict_set (fst kv) (snd kv) c
                                end) default_config d))
  | JList l =>
      if forallb (fun kv => existsb (json_is_str (fst kv)) l) default_config
      then Some (JList l) else None
  | JStr t =>
      if forallb (fun kv => is_substring (fst kv) t) default_config
      then Some (JStr t) else None
  | _ => None
  end.

(** [load_project_config]: every exception gives the default
    configuration. *)
Definition load_project_config (file : config_file) : json :=
  match file with
  | Holds config =>
      match merge_defaults config with
      | Some merged => merged
      | None => JDict default_config
      end
  | _ => JDict default_config
  end.

(** [l.remove(s)]: the first element equal to [s] goes. *)
Fixpoint remove_first (s : pystr) (l : list json) : list json :=
  match l with
  | [] => []
  | j :: r => if json_is_str s j then r else j :: remove_first s r
  end.

(** [l[:n]]. *)
Definition slice_to (n : Z) (l : list json) : list json :=
  if 0 <=? n then firstn (Z.to_nat n) l
  else firstn (length l - Z.to_nat (- n)) l.

(** [add_recent_file]: the file after the call; [write_ok] tells whether
    [save_project_config] manages to write. *)
Definition add_recent_file (file_path : pystr) (file : config_file) (max_recent : Z)
  (write_ok : bool) : attempt config_file :=
  match load_project_config file with
  | JDict config =>
      let recent_files :=
        match dict_get (lit "recent_files") config with
        | Some j => j
        | None => JList []
        end in
      match recent_files with
      | JList l =>
          let l := if existsb (json_is_str file_path) l
                   then remove_first file_path l else l in
          let l := JStr file_path :: l in
          let l := slice_to max_recent l in
          let config := dict_set (lit "recent_files") (JList l) config in
          Done (if write_ok then Holds (JDict config) else file)
      | JStr _ | JDict _ => Fails AttributeError
      | _ => Fails TypeError
      end
  | _ => Fails AttributeError
  end.




(** The file names [clean_output_directory] takes for images. *)
Definition is_image_name (f : pystr) : bool :=
  let l := lower f in
  endswith l (lit ".png") || endswith l (lit ".webp")
  || endswith l (lit ".jpg") || endswith l (lit ".jpeg").

(** [clean_output_directory] on a directory holding the names [content]:
    the returned flag and the names left.  [listable] tells whether
    [os.listdir] succeeds, [confirm] is the answer of the callback when
    there is one, [remove_ok] whether [os.remove] succeeds on a name. *)
Definition clean_output_directory (dir_exists listable : bool) (content : list pystr)
  (confirm : option bool) (remove_ok : pystr -> bool) : bool * list pystr :=
  if negb dir_exists then (true, content)
  else if negb listable then (false, content)
  else
    let files := filter is_image_name content in
    match files with
    | [] => (true, content)
    | _ =>
        match confirm with
        | Some false => (false, content)
        | _ => (true, filter (fun f => negb (is_image_name f && remove_ok f)) content)
        end
    end.

(** ** Vocabulary of the specification *)

(** The two interchangeable delimiters of a time string. *)
Definition is_delim (c : ascii) : bool := Ascii.eqb c ":" || Ascii.eqb c "-".

(** A part of a time string: a text without delimiter. *)
Definition no_delim (p : pystr) : bool := forallb (fun c => negb (is_delim c)) p.

(** [text] consists of exactly the three parts [p0], [p1], [p2], separated
    by a colon or a hyphen each. *)
Definition three_parts (text p0 p1 p2 : pystr) : Prop :=
  exists d1 d2,
    is_delim d1 = true /\ is_delim d2 = true /\
    no_delim p0 = true /\ no_delim p1 = true /\ no_delim p2 = true /\
    text = p0 ++ d1 :: p1 ++ d2 :: p2.

(** The colon- or hyphen-delimited parts of a time string. *)
Definition time_parts (text : pystr) : list pystr :=
  split_on ":" (replace_char "-" ":" text).


(** A text made of decimal digits only. *)
Definition all_digits (s : pystr) : bool := forallb is_digit s.

(** The number a run of digits denotes, continuing from [acc]. *)
Definition digits_value (acc : N) (s : pystr) : N :=
  fold_left (fun a c => (10 * a + digit_val c)%N) s acc.

(** The frame indices [first], [first + 1], ..., [first + n - 1]. *)
Fixpoint frames_from (first : Z) (n : nat) : list Z :=
  match n with
  | O => []
  | S n' => first :: frames_from (first + 1) n'
  end.

(** The frame selection rule of the decode loop, for start frame [s] and
    frame interval [k]. *)
Definition selected (s k i : Z) : bool := (i - s) mod (Z.max 1 k) =? 0.

(** The number of elements of [l] satisfying [p]. *)
Definition count (p : Z -> bool) (l : list Z) : Z := Z.of_nat (length (filter p l)).

(** The two backends, and the one that produced an outcome. *)
Inductive backend_kind : Type := OpenCV | FFmpeg.

Definition ran (o : outcome) : backend_kind :=
  match o with
  | ByOpenCV _ => OpenCV
  | ByFFmpeg _ _ => FFmpeg
  end.


(** The frames the decode loop reads and selects, and the frames it fails
    to read. *)
Definition taken (env : environment) (a : extract_args) (s i : Z) : bool :=
  read_ok env i && selected s (frame_interval a) i.

Definition lost (env : environment) (i : Z) : bool := negb (read_ok env i).

(** What the decode loop has accounted for so far: frames saved, frames
    failed and save tasks pending. *)
Definition settled (st : loop_state) : Z :=
  st_extracted st + st_failed st + Z.of_nat (length (st_futures st)).



(** The frames the decode loop reads, selects and saves, and the frames it
    reads and selects but fails to save. *)
Definition saved (env : environment) (a : extract_args) (s i : Z) : bool :=
  taken env a s i && save_ok env i.

Definition unsaved (env : environment) (a : extract_args) (s i : Z) : bool :=
  taken env a s i && negb (save_ok env i).

(** The file the direct backend writes for frame [i]. *)
Definition file_of (v : video_info) (a : extract_args) (i : Z) : saved_file :=
  {| file_path := frame_path v a i;
     file_encoding := Some (save_encoding (frame_ext a) a);
     file_frame := i |}.

(** Progress events for the files [paths], numbered from [k]. *)
Fixpoint events_from (total k : Z) (paths : list pystr) : list progress_event :=
  match paths with
  | [] => []
  | p :: r =>
      {| ev_current := k; ev_total := total; ev_path := p |} :: events_from total (k + 1) r
  end.

(** Saves that have succeeded and frames that have failed so far, pending
    save tasks included. *)
Definition succeeded (st : loop_state) : Z :=
  st_extracted st + Z.of_nat (length (filter fst (st_futures st))).

Definition miscarried (st : loop_state) : Z :=
  st_failed st + Z.of_nat (length (filter (fun f => negb (fst f)) (st_futures st))).

(** What the run has reported so far: the events of the frames [done]. *)
Definition reported_for (v : video_info) (a : extract_args) (total : Z)
  (st : loop_state) (done : list Z) : Prop :=
  st_progress st = Z.of_nat (length done) /\
  st_reported st
  = if progress_callback a then events_from total 1 (map (frame_path v a) done) else [].



(** How often the string [s] occurs in a list of JSON values. *)
Definition occurrences (s : pystr) (l : list json) : nat :=
  length (filter (json_is_str s) l).

(** ** Sample inputs *)

(** A 25 fps video of [n] frames. *)
Definition video_25fps (n : Z) : video_info :=
  {| total_frames := n; fps := inject_Z 25; width := 1920; height := 1080 |}.

(** Six frames are decodable, every save and rename succeeds, ffmpeg is
    not installed; [reads] gives the outcome of each read. *)
Definition sample_env (reads : Z -> bool) (ffmpeg : bool) : environment :=
  {| cap_opened := true;
     ffmpeg_on_path := fun _ => ffmpeg;
     read_ok := reads;
     save_ok := fun _ => true;
     ffmpeg_decoded := [0; 1; 2; 3; 4; 5];
     ffmpeg_returncode := 0;
     replace_ok := fun _ => true |}.

(** Frames 0 to 5 of the video, one frame in [k], written as [fmt]. *)
Definition sample_args (k : Z) (threads : bool) (fmt : pystr) : extract_args :=
  {| output_dir := lit "out";
     start_time := lit "00:00:00";
     end_time := Some (lit "00:00:0.2");
     frame_interval := k;
     progress_callback := true;
     use_threading := threads;
     output_format := Some fmt;
     quality := None;
     lossless := true;
     png_compress_level := 9;
     backend := lit "auto";
     hwaccel := Some (lit "auto") |}.

(** The same request, addressed to the backend [name]. *)
Definition sample_args_for (name : pystr) : extract_args :=
  {| output_dir := lit "out";
     start_time := lit "00:00:00";
     end_time := Some (lit "00:00:0.2");
     frame_interval := 2;
     progress_callback := true;
     use_threading := true;
     output_format := Some (lit "png");
     quality := None;
     lossless := true;
     png_compress_level := 9;
     backend := name;
     hwaccel := Some (lit "auto") |}.

(** * Properties *)

(** ** Splitting *)

Section SplitFacts.

Variable sep : ascii.

Lemma split_on_not_nil (s : pystr) : split_on sep s <> [].
Proof.
  destruct s as [|c r]; simpl; [discriminate|].
  destruct (Ascii.eqb c sep); [discriminate|].
  destruct (split_on sep r); discriminate.
Qed.

Lemma split_on_no_sep (s : pystr) : ~ In sep s -> split_on sep s = [s].
Proof.
  induction s as [|c r IH]; simpl; intros Hn; [reflexivity|].
  destruct (Ascii.eqb_spec c sep) as [->|Hc]; [tauto|].
  rewrite IH by tauto. reflexivity.
Qed.

Lemma split_on_app (s r : pystr) :
  ~ In sep s -> split_on sep (s ++ sep :: r) = s :: split_on sep r.
Proof.
  induction s as [|c s' IH]; simpl; intros Hn.
  - now rewrite Ascii.eqb_refl.
  - destruct (Ascii.eqb_spec c sep) as [->|Hc]; [tauto|].
    rewrite IH by tauto. reflexivity.
Qed.

(** The first field of a split has no separator; the text is this field
    alone, or this field, a separator and the text of the other fields. *)
Lemma split_on_cons (s p : pystr) (ps : list pystr) :
  split_on sep s = p :: ps ->
  ~ In sep p /\
  ((ps = [] /\ s = p) \/ (exists r, s = p ++ sep :: r /\ split_on sep r = ps)).
Proof.
  revert p ps. induction s as [|c r IH]; simpl; intros p ps E.
  - injection E as <- <-. split; [tauto|]. left; split; reflexivity.
  - destruct (Ascii.eqb_spec c sep) as [->|Hc].
    + injection E as <- <-. split; [tauto|]. right. exists r. split; reflexivity.
    + destruct (split_on sep r) as [|h t] eqn:Er.
      * exfalso. eapply split_on_not_nil; eassumption.
      * injection E as <- <-. destruct (IH h t eq_refl) as [Hh Hs].
        split; [simpl; intros [?|?]; [congruence|tauto]|].
        destruct Hs as [[-> ->]|[r' [-> Hr']]].
        -- left; split; reflexivity.
        -- right. exists r'. split; [reflexivity|assumption].
Qed.

End SplitFacts.

Lemma is_delim_colon_or_dash (c : ascii) :
  is_delim c = true <-> c = ":"%char \/ c = "-"%char.
Proof.
  unfold is_delim. rewrite orb_true_iff, !Ascii.eqb_eq. tauto.
Qed.

Lemma no_delim_spec (p : pystr) :
  no_delim p = true <-> ~ In ":"%char p /\ ~ In "-"%char p.
Proof.
  unfold no_delim. rewrite forallb_forall. split.
  - intros Hp. split; intros Hin; apply Hp in Hin; discriminate.
  - intros [H1 H2] c Hc. destruct (is_delim c) eqn:E; [|reflexivity].
    apply is_delim_colon_or_dash in E. destruct E as [->| ->]; tauto.
Qed.

Lemma replace_no_delim (p : pystr) :
  no_delim p = true -> replace_char "-" ":" p = p.
Proof.
  rewrite no_delim_spec. intros [_ Hd]. unfold replace_char.
  induction p as [|c r IH]; simpl; [reflexivity|].
  destruct (Ascii.eqb_spec c "-") as [->|Hc]; [simpl in Hd; tauto|].
  rewrite IH by (simpl in Hd; tauto). reflexivity.
Qed.

Lemma replace_delim (d : ascii) :
  is_delim d = true -> (if Ascii.eqb d "-" then ":"%char else d) = ":"%char.
Proof.
  rewrite is_delim_colon_or_dash. intros [->| ->]; reflexivity.
Qed.

(** A text whose image under the replacement has no colon had no delimiter
    and is left unchanged. *)
Lemma replace_colon_free (t p : pystr) :
  replace_char "-" ":" t = p -> ~ In ":"%char p -> no_delim t = true /\ t = p.
Proof.
  revert p. induction t as [|c r IH]; simpl; intros p E Hn.
  - subst p. split; reflexivity.
  - destruct p as [|x p']; [discriminate|]. injection E as Ex Er.
    destruct (IH p' Er) as [Hr ->]; [simpl in Hn; tauto|].
    destruct (Ascii.eqb_spec c "-") as [->|Hc].
    + subst x. simpl in Hn. tauto.
    + subst x. split; [|reflexivity].
      simpl. rewrite Hr, andb_true_r. unfold is_delim.
      destruct (Ascii.eqb_spec c ":") as [->|Hc']; [simpl in Hn; tauto|].
      destruct (Ascii.eqb_spec c "-"); [contradiction|reflexivity].
Qed.

Lemma replace_delim_inv (d : ascii) :
  (if Ascii.eqb d "-" then ":"%char else d) = ":"%char -> is_delim d = true.
Proof.
  unfold is_delim. destruct (Ascii.eqb_spec d "-") as [->|Hd]; [reflexivity|].
  intros ->. reflexivity.
Qed.

(** The code's splitting yields three fields exactly on the texts made of
    three delimiter-free parts. *)
Lemma time_parts_three (text p0 p1 p2 : pystr) :
  time_parts text = [p0; p1; p2] <-> three_parts text p0 p1 p2.
Proof.
  unfold time_parts. split.
  - intros E.
    apply split_on_cons in E. destruct E as [H0 [[E _]|[r1 [E1 E]]]]; [discriminate|].
    apply split_on_cons in E. destruct E as [H1 [[E _]|[r2 [E2 E]]]]; [discriminate|].
    apply split_on_cons in E. destruct E as [H2 [[_ E3]|[r3 [_ E]]]];
      [|exfalso; eapply split_on_not_nil; eassumption].
    subst r2 r1. unfold replace_char in E1.
    apply map_eq_app in E1. destruct E1 as [t0 [u [-> [E0 Eu]]]].
    destruct u as [|d1 u]; [discriminate|]. simpl in Eu. injection Eu as Ed1 Eu.
    apply map_eq_app in Eu. destruct Eu as [t1 [w [-> [E1 Ew]]]].
    destruct w as [|d2 t2]; [discriminate|]. simpl in Ew. injection Ew as Ed2 E2.
    destruct (replace_colon_free t0 p0 E0 H0) as [N0 ->].
    destruct (replace_colon_free t1 p1 E1 H1) as [N1 ->].
    destruct (replace_colon_free t2 p2 E2 H2) as [N2 ->].
    exists d1, d2. repeat split; auto using replace_delim_inv.
  - intros [d1 [d2 [D1 [D2 [N0 [N1 [N2 ->]]]]]]].
    unfold replace_char. rewrite map_app. simpl. rewrite map_app. simpl.
    fold (replace_char "-" ":" p0) (replace_char "-" ":" p1) (replace_char "-" ":" p2).
    rewrite !replace_no_delim, !replace_delim by assumption.
    apply no_delim_spec in N0, N1, N2.
    rewrite split_on_app by tauto. rewrite split_on_app by tauto.
    rewrite split_on_no_sep by tauto. reflexivity.
Qed.

(** ** The format checker *)

Lemma seconds_in_range (x : pyfloat) :
  f_leb (Fin 0) x && f_ltb x (Fin (inject_Z 60)) = true <->
  exists s, x = Fin s /\ (0 <= s)%Q /\ (s < inject_Z 60)%Q.
Proof.
  split.
  - destruct x as [q|neg|]; simpl.
    + rewrite andb_true_iff, negb_true_iff, Qle_bool_iff. intros [Hlo Hhi].
      exists q. repeat split; [assumption|].
      apply Qnot_le_lt. intros Hle. apply Qle_bool_iff in Hle. congruence.
    + destruct neg; discriminate.
    + discriminate.
  - intros [s [-> [Hlo Hhi]]]. simpl.
    rewrite andb_true_iff, negb_true_iff. split; [now apply Qle_bool_iff|].
    destruct (Qle_bool (inject_Z 60) s) eqn:E; [|reflexivity].
    apply Qle_bool_iff in E. exfalso. eapply Qlt_not_le; eassumption.
Qed.


(** ** Reading numbers *)

Lemma lstrip_incl (s : pystr) (c : ascii) : In c (lstrip s) -> In c s.
Proof.
  induction s as [|x r IH]; simpl; [tauto|].
  destruct (is_space x); [intros Hc; right; auto|tauto].
Qed.

Lemma strip_incl (s : pystr) (c : ascii) : In c (strip s) -> In c s.
Proof.
  unfold strip, rstrip. intros Hc.
  apply lstrip_incl. apply in_rev. apply lstrip_incl. apply in_rev. exact Hc.
Qed.

Lemma split_sign_no_minus (s : pystr) :
  ~ In "-"%char s -> fst (split_sign s) = false.
Proof.
  destruct s as [|c r]; simpl; [reflexivity|]. intros Hn.
  destruct (Ascii.eqb_spec c "-") as [->|Hc]; [tauto|].
  destruct (Ascii.eqb c "+"); reflexivity.
Qed.

(** Without a minus sign [int()] reads a natural number. *)
Lemma py_int_nonneg (p : pystr) (h : Z) :
  ~ In "-"%char p -> py_int p = Some h -> 0 <= h.
Proof.
  intros Hn. unfold py_int.
  assert (Hs : fst (split_sign (strip p)) = false).
  { apply split_sign_no_minus. intros Hc. apply Hn. now apply strip_incl. }
  destruct (split_sign (strip p)) as [neg body]. simpl in Hs. subst neg.
  destruct (digitpart body) as [[v k]|]; [|discriminate].
  intros [= <-]. lia.
Qed.

Lemma ten_pow_pos (k : nat) : (0 < ten_pow k)%Q.
Proof.
  unfold ten_pow. change 0%Q with (inject_Z 0). rewrite <- Zlt_Qlt.
  apply Z.pow_pos_nonneg; lia.
Qed.

Lemma inject_N_nonneg (n : N) : (0 <= inject_Z (Z.of_N n))%Q.
Proof. change 0%Q with (inject_Z 0). rewrite <- Zle_Qle. lia. Qed.

Lemma Qdiv_nonneg (x y : Q) : (0 <= x)%Q -> (0 < y)%Q -> (0 <= x / y)%Q.
Proof.
  intros Hx Hy. apply Qle_shift_div_l; [assumption|]. now rewrite Qmult_0_l.
Qed.

Lemma mantissa_nonneg (s : pystr) (q : Q) : mantissa s = Some q -> (0 <= q)%Q.
Proof.
  unfold mantissa. destruct (break_at _ s) as [ip [fp|]].
  - destruct ip as [|i ip'], fp as [|f fp']; try discriminate.
    + destruct (digitpart (f :: fp')) as [[w k]|]; [|discriminate].
      intros [= <-]. apply Qdiv_nonneg; [apply inject_N_nonneg|apply ten_pow_pos].
    + destruct (digitpart (i :: ip')) as [[w k]|]; [|discriminate].
      intros [= <-]. apply inject_N_nonneg.
    + destruct (digitpart (i :: ip')) as [[w k]|]; [|discriminate].
      destruct (digitpart (f :: fp')) as [[w' k']|]; [|discriminate].
      intros [= <-].
      pose proof (inject_N_nonneg w).
      pose proof (Qdiv_nonneg _ _ (inject_N_nonneg w') (ten_pow_pos k')).
      lra.
  - destruct (digitpart ip) as [[w k]|]; [|discriminate].
    intros [= <-]. apply inject_N_nonneg.
Qed.

Lemma float_number_nonneg (s : pystr) (q : Q) : float_number s = Some q -> (0 <= q)%Q.
Proof.
  unfold float_number. destruct (break_at is_exp_mark s) as [m [e|]].
  - destruct (split_sign e) as [eneg ed].
    destruct (mantissa m) as [x|] eqn:Em; [|discriminate].
    destruct (digitpart ed) as [[n k]|]; [|discriminate].
    apply mantissa_nonneg in Em.
    pose proof (ten_pow_pos (N.to_nat n)) as Hp.
    destruct eneg; intros [= <-].
    + now apply Qdiv_nonneg.
    + apply Qmult_le_0_compat; [assumption|now apply Qlt_le_weak].
  - apply mantissa_nonneg.
Qed.

(** Without a minus sign a finite [float()] is not negative. *)
Lemma py_float_nonneg (p : pystr) (s : Q) :
  ~ In "-"%char p -> py_float p = Some (Fin s) -> (0 <= s)%Q.
Proof.
  intros Hn. unfold py_float.
  assert (Hs : fst (split_sign (strip p)) = false).
  { apply split_sign_no_minus. intros Hc. apply Hn. now apply strip_incl. }
  destruct (split_sign (strip p)) as [neg body]. simpl in Hs. subst neg.
  destruct (_ || _); [discriminate|].
  destruct (PyStr.eqb _ _); [discriminate|].
  destruct (float_number body) as [q|] eqn:E; [|discriminate].
  intros [= <-]. now apply float_number_nonneg in E.
Qed.

Lemma Qtrunc_nonneg (q : Q) : (0 <= q)%Q -> Qtrunc q = Qfloor q.
Proof.
  intros Hq. unfold Qtrunc. apply Qle_bool_iff in Hq. now rewrite Hq.
Qed.

Lemma Qfloor_nonneg (q : Q) : (0 <= q)%Q -> 0 <= Qfloor q.
Proof.
  intros Hq. change 0 with (Qfloor 0). now apply Qfloor_resp_le.
Qed.

(** ** [timestamp_to_frame] *)

(** The value the code computes on three readable leading fields. *)
Lemma timestamp_to_frame_fields (v : video_info) (text p0 p1 p2 : pystr)
  (rest : list pystr) (h m : Z) (x : pyfloat) :
  time_parts text = p0 :: p1 :: p2 :: rest ->
  py_int p0 = Some h -> py_int p1 = Some m -> py_float p2 = Some x ->
  timestamp_to_frame v text =
    match int_of_float (f_mul (f_add (Fin (inject_Z (h * 3600 + m * 60))) x) (Fin (fps v))) with
    | Ret n => Ret (Z.min n (total_frames v - 1))
    | Raise ValueError | Raise IndexError => Ret 0
    | Raise e => Raise e
    end.
Proof.
  intros E E0 E1 E2. unfold timestamp_to_frame, timestamp_to_frame_try.
  fold (time_parts text). rewrite E, E0, E1, E2. simpl.
  destruct (int_of_float _) as [n|[]]; reflexivity.
Qed.






(** ** Printing and reading back decimal fields *)

Lemma digit_char (d : N) :
  (d < 10)%N ->
  is_digit (ascii_of_N (48 + d)) = true /\ digit_val (ascii_of_N (48 + d)) = d.
Proof.
  intros Hd. unfold is_digit, digit_val, code.
  rewrite N_ascii_embedding by lia.
  split; [|lia].
  apply andb_true_iff. split; apply N.leb_le; lia.
Qed.

Lemma digits_fuel_all_digits (f : nat) (n : N) : all_digits (digits_fuel f n) = true.
Proof.
  revert n. induction f as [|f IH]; intros n; [reflexivity|].
  cbn [digits_fuel]. unfold all_digits in *.
  destruct (N.ltb_spec n 10) as [Hlt|Hge].
  - cbn [forallb]. rewrite (proj1 (digit_char n Hlt)). reflexivity.
  - rewrite forallb_app, IH. cbn [forallb].
    rewrite (proj1 (digit_char (n mod 10) (N.mod_lt n 10 ltac:(lia)))). reflexivity.
Qed.

Lemma digits_value_snoc (s : pystr) (c : ascii) (acc : N) :
  digits_value acc (s ++ [c]) = (10 * digits_value acc s + digit_val c)%N.
Proof. unfold digits_value. rewrite fold_left_app. reflexivity. Qed.

(** With enough fuel the digits printed denote the number. *)
Lemma digits_fuel_value (f : nat) (n : N) :
  (n < 2 ^ N.of_nat f)%N -> digits_value 0 (digits_fuel f n) = n.
Proof.
  revert n. induction f as [|f IH]; intros n Hn.
  - simpl in *. lia.
  - cbn [digits_fuel]. destruct (N.ltb_spec n 10) as [Hlt|Hge].
    + unfold digits_value. cbn [fold_left]. rewrite (proj2 (digit_char n Hlt)). reflexivity.
    + rewrite digits_value_snoc.
      rewrite (proj2 (digit_char (n mod 10) (N.mod_lt n 10 ltac:(lia)))).
      rewrite IH.
      * symmetry. apply N.div_mod'.
      * rewrite Nat2N.inj_succ, N.pow_succ_r' in Hn.
        apply N.Div0.div_lt_upper_bound. lia.
Qed.

Lemma digits_all_digits (n : N) : all_digits (digits n) = true.
Proof. apply digits_fuel_all_digits. Qed.

Lemma digits_value_digits (n : N) : digits_value 0 (digits n) = n.
Proof.
  unfold digits. apply digits_fuel_value.
  destruct n as [|p]; [simpl; lia|].
  rewrite Nat2N.inj_succ, N2Nat.id.
  apply N.log2_spec. lia.
Qed.

Lemma digits_not_nil (n : N) : digits n <> [].
Proof.
  unfold digits. cbn [digits_fuel]. destruct (n <? 10)%N; [discriminate|].
  intros E. apply app_eq_nil in E. destruct E; discriminate.
Qed.

Lemma zero_pad_all_digits (w : nat) (s : pystr) :
  all_digits s = true -> all_digits (zero_pad w s) = true.
Proof.
  intros Hs. unfold zero_pad, all_digits in *. rewrite forallb_app, Hs, andb_true_r.
  induction (w - length s)%nat as [|k IH]; simpl; [reflexivity|assumption].
Qed.

Lemma zero_pad_value (w : nat) (s : pystr) :
  digits_value 0 (zero_pad w s) = digits_value 0 s.
Proof.
  unfold zero_pad, digits_value. rewrite fold_left_app. f_equal.
  induction (w - length s)%nat as [|k IH]; simpl; [reflexivity|assumption].
Qed.

Lemma zero_pad_not_nil (w : nat) (s : pystr) : s <> [] -> zero_pad w s <> [].
Proof.
  unfold zero_pad. intros Hs E. apply app_eq_nil in E. tauto.
Qed.

(** A non-negative integer is printed as its zero-padded digits. *)
Lemma fmt_d_nonneg (w : nat) (z : Z) :
  0 <= z -> fmt_d w z = zero_pad w (digits (Z.to_N z)).
Proof.
  intros Hz. unfold fmt_d. destruct (Z.ltb_spec z 0); [lia|reflexivity].
Qed.

Lemma fmt_d_field (w : nat) (z : Z) :
  0 <= z ->
  all_digits (fmt_d w z) = true /\ fmt_d w z <> [] /\
  digits_value 0 (fmt_d w z) = Z.to_N z.
Proof.
  intros Hz. rewrite fmt_d_nonneg by assumption. repeat split.
  - apply zero_pad_all_digits, digits_all_digits.
  - apply zero_pad_not_nil, digits_not_nil.
  - rewrite zero_pad_value. apply digits_value_digits.
Qed.

Lemma digit_code (c : ascii) : is_digit c = true -> (48 <= code c <= 57)%N.
Proof.
  unfold is_digit. rewrite andb_true_iff, !N.leb_le. tauto.
Qed.

Lemma digit_not_space (c : ascii) : is_digit c = true -> is_space c = false.
Proof.
  intros Hc. apply digit_code in Hc. unfold is_space.
  apply orb_false_iff. split; apply andb_false_iff; right; apply N.leb_gt; lia.
Qed.

Lemma digit_not_upper (c : ascii) : is_digit c = true -> is_upper c = false.
Proof.
  intros Hc. apply digit_code in Hc. unfold is_upper.
  apply andb_false_iff. left. apply N.leb_gt. lia.
Qed.

(** A digit differs from every character that is not a digit. *)
Lemma digit_neq (c x : ascii) :
  is_digit c = true -> is_digit x = false -> Ascii.eqb c x = false.
Proof.
  intros Hc Hx. destruct (Ascii.eqb_spec c x) as [->|]; [congruence|reflexivity].
Qed.

Lemma all_digits_Forall (s : pystr) :
  all_digits s = true <-> Forall (fun c => is_digit c = true) s.
Proof.
  unfold all_digits. rewrite forallb_forall, Forall_forall. tauto.
Qed.

Lemma lstrip_head (s : pystr) :
  Forall (fun c => is_space c = false) s -> lstrip s = s.
Proof.
  intros Hs. destruct Hs as [|c r Hc Hr]; simpl; [reflexivity|now rewrite Hc].
Qed.

Lemma strip_digits (s : pystr) : all_digits s = true -> strip s = s.
Proof.
  intros Hs. apply all_digits_Forall in Hs.
  assert (Hn : Forall (fun c => is_space c = false) s).
  { eapply Forall_impl; [|exact Hs]. apply digit_not_space. }
  unfold strip, rstrip. rewrite (lstrip_head s Hn).
  rewrite lstrip_head by now apply Forall_rev.
  apply rev_involutive.
Qed.

Lemma split_sign_digits (s : pystr) :
  all_digits s = true -> split_sign s = (false, s).
Proof.
  destruct s as [|c r]; [reflexivity|]. unfold all_digits. simpl.
  rewrite andb_true_iff. intros [Hc _].
  rewrite (digit_neq c "-" Hc eq_refl), (digit_neq c "+" Hc eq_refl). reflexivity.
Qed.

Lemma digitpart_go_true (s : pystr) (acc : N) (cnt : nat) :
  all_digits s = true ->
  digitpart_go acc cnt true s = Some (digits_value acc s, (cnt + length s)%nat).
Proof.
  unfold all_digits. revert acc cnt.
  induction s as [|c r IH]; intros acc cnt Hs; simpl.
  - now rewrite Nat.add_0_r.
  - simpl in Hs. apply andb_true_iff in Hs. destruct Hs as [Hc Hr].
    rewrite Hc, IH by assumption. now rewrite Nat.add_succ_r.
Qed.

Lemma digitpart_digits (s : pystr) :
  all_digits s = true -> s <> [] -> digitpart s = Some (digits_value 0 s, length s).
Proof.
  destruct s as [|c r]; [congruence|]. intros Hs _. unfold digitpart.
  pose proof Hs as Hs'. unfold all_digits in Hs'. simpl in Hs'.
  apply andb_true_iff in Hs'. destruct Hs' as [Hc Hr].
  cbn [digitpart_go]. rewrite Hc. rewrite digitpart_go_true by exact Hr.
  reflexivity.
Qed.

(** [int()] reads a run of digits as the number it denotes. *)
Lemma py_int_digits (s : pystr) :
  all_digits s = true -> s <> [] -> py_int s = Some (Z.of_N (digits_value 0 s)).
Proof.
  intros Hs Hn. unfold py_int.
  rewrite strip_digits, split_sign_digits, digitpart_digits by assumption.
  reflexivity.
Qed.

Lemma break_at_none (p : ascii -> bool) (s : pystr) :
  Forall (fun c => p c = false) s -> break_at p s = (s, None).
Proof.
  induction 1 as [|c r Hc Hr IH]; simpl; [reflexivity|]. now rewrite Hc, IH.
Qed.

Lemma digits_no_mark (p : ascii -> bool) (s : pystr) :
  (forall c, is_digit c = true -> p c = false) ->
  all_digits s = true -> break_at p s = (s, None).
Proof.
  intros Hp Hs. apply break_at_none. apply all_digits_Forall in Hs.
  eapply Forall_impl; [|exact Hs]. exact Hp.
Qed.

Lemma float_number_digits (s : pystr) :
  all_digits s = true -> s <> [] ->
  float_number s = Some (inject_Z (Z.of_N (digits_value 0 s))).
Proof.
  intros Hs Hn. unfold float_number.
  rewrite (digits_no_mark is_exp_mark s); [|clear; intros c Hc|assumption].
  - unfold mantissa.
    rewrite (digits_no_mark (fun c => Ascii.eqb c ".") s); [|clear; intros c Hc|assumption].
    + now rewrite digitpart_digits.
    + now apply digit_neq.
  - unfold is_exp_mark.
    now rewrite (digit_neq c "e" Hc eq_refl), (digit_neq c "E" Hc eq_refl).
Qed.

(** [float()] reads a run of digits as the number it denotes. *)
Lemma py_float_digits (s : pystr) :
  all_digits s = true -> s <> [] ->
  py_float s = Some (Fin (inject_Z (Z.of_N (digits_value 0 s)))).
Proof.
  intros Hs Hn. unfold py_float.
  rewrite strip_digits, split_sign_digits by assumption.
  rewrite float_number_digits by assumption.
  destruct s as [|c r]; [congruence|].
  unfold all_digits in Hs. simpl in Hs. apply andb_true_iff in Hs. destruct Hs as [Hc _].
  assert (El : lower_char c = c) by (unfold lower_char; now rewrite digit_not_upper).
  unfold lower. cbn [map]. rewrite !El.
  change (lit "inf") with ["i"; "n"; "f"]%char.
  change (lit "infinity") with ["i"; "n"; "f"; "i"; "n"; "i"; "t"; "y"]%char.
  change (lit "nan") with ["n"; "a"; "n"]%char.
  cbn [PyStr.eqb].
  rewrite (digit_neq c "i" Hc eq_refl), (digit_neq c "n" Hc eq_refl).
  reflexivity.
Qed.

Lemma all_digits_no_delim (s : pystr) : all_digits s = true -> no_delim s = true.
Proof.
  unfold all_digits, no_delim. rewrite !forallb_forall. intros Hs c Hc.
  apply Hs in Hc. unfold is_delim.
  now rewrite (digit_neq c ":" Hc eq_refl), (digit_neq c "-" Hc eq_refl).
Qed.


(** ** Floors of rationals *)

Lemma Qfloor_unique (y : Q) (z : Z) :
  (inject_Z z <= y)%Q -> (y < inject_Z (z + 1))%Q -> Qfloor y = z.
Proof.
  intros Hlo Hhi.
  pose proof (Qfloor_le y) as H1. pose proof (Qlt_floor y) as H2.
  assert (z < Qfloor y + 1) by (rewrite Zlt_Qlt; lra).
  assert (Qfloor y < z + 1) by (rewrite Zlt_Qlt; lra).
  lia.
Qed.

Lemma Qfloor_sub_Z (x : Q) (z : Z) : Qfloor (x - inject_Z z) = Qfloor x - z.
Proof.
  pose proof (Qfloor_le x) as H1. pose proof (Qlt_floor x) as H2.
  apply Qfloor_unique.
  - unfold Z.sub. rewrite inject_Z_plus, inject_Z_opp. lra.
  - replace (Qfloor x - z + 1) with (Qfloor x + 1 + - z) by lia.
    rewrite inject_Z_plus, inject_Z_opp. lra.
Qed.

Lemma Qfloor_div_Z (x : Q) (n : Z) :
  0 < n -> Qfloor (x / inject_Z n) = Qfloor x / n.
Proof.
  intros Hn.
  pose proof (Qfloor_le x) as H1. pose proof (Qlt_floor x) as H2.
  assert (Hq : (0 < inject_Z n)%Q) by (change 0%Q with (inject_Z 0); now rewrite <- Zlt_Qlt).
  pose proof (Z.div_mod (Qfloor x) n ltac:(lia)) as Hdm.
  pose proof (Z.mod_pos_bound (Qfloor x) n Hn) as Hb.
  apply Qfloor_unique.
  - apply Qle_shift_div_l; [assumption|].
    rewrite <- inject_Z_mult.
    apply Qle_trans with (inject_Z (Qfloor x)); [|assumption].
    rewrite <- Zle_Qle. nia.
  - apply Qlt_shift_div_r; [assumption|].
    rewrite <- inject_Z_mult.
    apply Qlt_le_trans with (inject_Z (Qfloor x + 1)); [assumption|].
    rewrite <- Zle_Qle. nia.
Qed.

Lemma Qtrunc_Z (z : Z) : Qtrunc (inject_Z z) = z.
Proof.
  unfold Qtrunc. destruct (Qle_bool 0 (inject_Z z)); [apply Qfloor_Z|apply Qceiling_Z].
Qed.

(** The floor of a float remainder by a positive integer is the remainder
    of the floor. *)
Lemma py_mod_floor (t : Q) (n : Z) :
  0 < n -> (0 <= t)%Q ->
  (0 <= py_mod t (inject_Z n))%Q /\ Qfloor (py_mod t (inject_Z n)) = Qfloor t mod n.
Proof.
  intros Hn Ht. unfold py_mod.
  rewrite Qfloor_div_Z by assumption. rewrite <- inject_Z_mult.
  pose proof (Qfloor_le t) as H1.
  pose proof (Z.div_mod (Qfloor t) n ltac:(lia)) as Hdm.
  pose proof (Z.mod_pos_bound (Qfloor t) n Hn) as Hb.
  split.
  - assert (inject_Z (n * (Qfloor t / n)) <= inject_Z (Qfloor t))%Q
      by (rewrite <- Zle_Qle; lia).
    lra.
  - rewrite Qfloor_sub_Z. lia.
Qed.

(** The hour, minute and second fields [frame_to_timestamp] computes from a
    time [t] are those of the whole second [floor t]; the millisecond field
    is not negative. *)
Lemma clock_fields (t : Q) :
  (0 <= t)%Q ->
  Qtrunc (py_floordiv t (inject_Z 3600)) = Qfloor t / 3600 /\
  Qtrunc (py_floordiv (py_mod t (inject_Z 3600)) (inject_Z 60)) = (Qfloor t mod 3600) / 60 /\
  Qtrunc (py_mod t (inject_Z 60)) = Qfloor t mod 60 /\
  0 <= Qtrunc (py_mod t (inject_Z 1) * inject_Z 1000).
Proof.
  intros Ht. unfold py_floordiv. rewrite !Qtrunc_Z.
  destruct (py_mod_floor t 3600 ltac:(lia) Ht) as [_ E3600].
  destruct (py_mod_floor t 60 ltac:(lia) Ht) as [P60 E60].
  destruct (py_mod_floor t 1 ltac:(lia) Ht) as [P1 _].
  repeat split.
  - apply Qfloor_div_Z. lia.
  - rewrite Qfloor_div_Z by lia. now rewrite E3600.
  - rewrite Qtrunc_nonneg by assumption. exact E60.
  - assert (Hp : (0 <= py_mod t (inject_Z 1) * inject_Z 1000)%Q).
    { apply Qmult_le_0_compat; [assumption|]. now vm_compute. }
    rewrite Qtrunc_nonneg by assumption. now apply Qfloor_nonneg.
Qed.

(** ** Round trip through the timestamp label *)





(** ** The decode loop of the direct backend *)


Lemma frames_from_snoc (n : nat) (first : Z) :
  frames_from first (S n) = frames_from first n ++ [first + Z.of_nat n].
Proof.
  revert first. induction n as [|n IH]; intros first.
  - simpl. now rewrite Z.add_0_r.
  - change (frames_from first (S (S n))) with (first :: frames_from (first + 1) (S n)).
    rewrite IH. cbn [frames_from app]. do 3 f_equal. lia.
Qed.

Section LoopFacts.

Variable v : video_info.
Variable env : environment.
Variable a : extract_args.
Variable s : Z.
Variable total : Z.

Lemma loop_body_effect (i : Z) (st : loop_state) :
  st_dispatched (loop_body v env a s total i st)
    = st_dispatched st ++ (if taken env a s i then [i] else []) /\
  settled (loop_body v env a s total i st) =
    settled st + (if taken env a s i then 1 else 0) + (if lost env i then 1 else 0).
Proof.
  unfold taken, lost, settled, loop_body, selected.
  destruct (read_ok env i); cbn [negb andb].
  - destruct ((i - s) mod Z.max 1 (frame_interval a) =? 0).
    + unfold save_and_report.
      destruct (save_ok env i), (use_threading a); cbn;
        rewrite ?length_app; cbn; split; try reflexivity; lia.
    + rewrite app_nil_r. split; [reflexivity|lia].
  - cbn. rewrite app_nil_r. split; [reflexivity|lia].
Qed.

Lemma decode_loop_effect (n : nat) (first : Z) (st : loop_state) :
  st_dispatched (decode_loop v env a s total n first st)
    = st_dispatched st ++ filter (taken env a s) (frames_from first n) /\
  settled (decode_loop v env a s total n first st)
    = settled st + count (taken env a s) (frames_from first n)
      + count (lost env) (frames_from first n).
Proof.
  unfold count. revert first st.
  induction n as [|n IH]; intros first st.
  - cbn. rewrite app_nil_r. split; [reflexivity|lia].
  - cbn [decode_loop frames_from filter].
    destruct (IH (first + 1) (loop_body v env a s total first st)) as [ID IS].
    destruct (loop_body_effect first st) as [BD BS].
    rewrite ID, IS, BD, BS.
    destruct (taken env a s first), (lost env first); cbn [app length];
      rewrite <- ?app_assoc; cbn [app]; split; try reflexivity; lia.
Qed.

Lemma collect_effect (futs : list (bool * pystr)) (st : loop_state) :
  let st' := fold_left (collect a total) futs st in
  st_extracted st' + st_failed st'
    = st_extracted st + st_failed st + Z.of_nat (length futs) /\
  st_dispatched st' = st_dispatched st.
Proof.
  revert st. induction futs as [|[ok p] futs IH]; intros st.
  - cbn. split; [lia|reflexivity].
  - cbn [fold_left]. destruct (IH (collect a total st (ok, p))) as [IC ID].
    cbv zeta. rewrite IC, ID. unfold collect. destruct ok; cbn; split; try reflexivity; lia.
Qed.

(** The run hands to [save_and_report] the frames read and selected, in
    order, and its two counters add up to these plus the failed reads. *)
Lemma extract_frames_opencv_effect (e : Z) :
  let r := extract_frames_opencv v env a s total e in
  let frames := frames_from s (Z.to_nat (e - s + 1)) in
  dispatched r = filter (taken env a s) frames /\
  extracted_count (summary r) + failed_count (summary r)
    = count (taken env a s) frames + count (lost env) frames.
Proof.
  cbv zeta. unfold extract_frames_opencv. cbn [dispatched summary extracted_count failed_count].
  destruct (decode_loop_effect (Z.to_nat (e - s + 1)) s loop_init) as [LD LS].
  unfold settled in LS.
  set (st := decode_loop v env a s total (Z.to_nat (e - s + 1)) s loop_init) in *.
  destruct (collect_effect (st_futures st) st) as [CC CD]. cbv zeta in CC, CD.
  rewrite CD, LD, CC. cbn [loop_init st_dispatched app]. split; [reflexivity|].
  cbn [loop_init st_extracted st_failed st_futures length] in LS. lia.
Qed.

End LoopFacts.

(** ** The planned count and the selection rule *)

Lemma ceil_div_step (n k : Z) :
  0 <= n -> 1 <= k ->
  (n + k) / k = (n + k - 1) / k + (if n mod k =? 0 then 1 else 0).
Proof.
  intros Hn Hk.
  pose proof (Z.div_mod n k ltac:(lia)) as Hdm.
  pose proof (Z.mod_pos_bound n k ltac:(lia)) as Hb.
  destruct (Z.eqb_spec (n mod k) 0) as [E|E].
  - rewrite <- (Z.div_unique (n + k) k (n / k + 1) 0) by lia.
    rewrite <- (Z.div_unique (n + k - 1) k (n / k) (k - 1)) by lia. lia.
  - rewrite <- (Z.div_unique (n + k) k (n / k + 1) (n mod k)) by lia.
    rewrite <- (Z.div_unique (n + k - 1) k (n / k + 1) (n mod k - 1)) by lia. lia.
Qed.

(** Among [n] consecutive frames starting at [s], one in [k] is selected,
    the first one included. *)
Lemma count_selected (s k : Z) (n : nat) :
  1 <= k -> count (selected s k) (frames_from s n) = (Z.of_nat n + k - 1) / k.
Proof.
  intros Hk. unfold count. induction n as [|n IH].
  - cbn. symmetry. apply Z.div_small. lia.
  - rewrite frames_from_snoc, filter_app, length_app, Nat2Z.inj_add, IH.
    cbn [filter]. unfold selected. rewrite Z.max_r by lia.
    replace (s + Z.of_nat n - s) with (Z.of_nat n) by lia.
    replace (Z.of_nat (S n) + k - 1) with (Z.of_nat n + k) by lia.
    rewrite (ceil_div_step (Z.of_nat n) k) by lia.
    destruct (Z.of_nat n mod k =? 0); reflexivity.
Qed.


Lemma filter_ext_in_Z (p q : Z -> bool) (l : list Z) :
  (forall i, In i l -> p i = q i) -> filter p l = filter q l.
Proof.
  induction l as [|x l IH]; intros H; [reflexivity|].
  cbn [filter]. rewrite (H x (or_introl eq_refl)), IH; [reflexivity|].
  intros i Hi. apply H. now right.
Qed.

(** The range a successful [plan] returns is not empty, and its count is
    the length of the Python range over it. *)
Lemma plan_range (v : video_info) (env : environment) (a : extract_args) (s e n : Z) :
  plan v env a = Ret (s, e, n) ->
  s < e /\ range_len s (e + 1) (frame_interval a) = Ret n.
Proof.
  unfold plan. destruct (cap_opened env); cbn [negb]; [|discriminate].
  destruct (timestamp_to_frame v (start_time a)) as [s0|]; cbn [bind]; [|discriminate].
  destruct (if truthy (end_time a) then _ else _) as [e0|]; cbn [bind]; [|discriminate].
  destruct (Z.leb_spec (Z.min e0 (total_frames v - 1)) (Z.max 0 s0)); [discriminate|].
  destruct (range_len _ _ _) as [m|] eqn:E; cbn [bind]; [|discriminate].
  intros [= <- <- <-]. split; [assumption|exact E].
Qed.



(** ** The counters of a completed direct run *)

Lemma count_split (p q : Z -> bool) (l : list Z) :
  count (fun i => p i && q i) l + count (fun i => negb (p i)) l
  = count q l + count (fun i => negb (p i) && negb (q i)) l.
Proof.
  unfold count. induction l as [|x l IH]; [reflexivity|].
  cbn [filter]. destruct (p x), (q x); cbn [andb negb length]; lia.
Qed.

(** The two counters of a completed direct run add up to the planned count
    plus the number of frames that failed to decode without being selected. *)
Lemma direct_backend_count_balance (v : video_info) (env : environment)
  (a : extract_args) (s e : Z) :
  s <= e -> 1 <= frame_interval a ->
  let k := frame_interval a in
  let r := extract_frames_opencv v env a s ((e - s) / k + 1) e in
  extracted_count (summary r) + failed_count (summary r)
  = total_frames_to_extract (summary r)
    + count (fun i => negb (read_ok env i) && negb (selected s k i))
        (frames_from s (Z.to_nat (e - s + 1))).
Proof.
  intros Hse Hk k r. subst k r.
  destruct (extract_frames_opencv_effect v env a s ((e - s) / frame_interval a + 1) e)
    as [_ EC].
  cbv zeta in EC. rewrite EC. clear EC.
  unfold taken, lost.
  rewrite (count_split (read_ok env) (selected s (frame_interval a))).
  rewrite count_selected by assumption. rewrite Z2Nat.id by lia.
  cbn [extract_frames_opencv summary total_frames_to_extract].
  replace (e - s + 1 + frame_interval a - 1) with ((e - s) + 1 * frame_interval a) by lia.
  rewrite Z.div_add by lia. reflexivity.
Qed.

(** C2 fails on the code: a video whose header announces more frames than
    can be decoded.  Of the frames 0 to 5, every second one is planned
    (three frames); only frame 0 can be read.  The run reports one extracted
    and five failed frames: the failed reads of the unselected frames 1, 3
    and 5 are counted too. *)
Theorem failed_reads_of_unselected_frames_are_counted :
  exists r,
    extract_frames (video_25fps 1000) (lit "in.mp4")
      (sample_env (fun i => i =? 0) false) (sample_args 2 true (lit "png"))
    = Ret (ByOpenCV r) /\
    total_frames_to_extract (summary r) = 3 /\
    extracted_count (summary r) = 1 /\
    failed_count (summary r) = 5 /\
    extracted_count (summary r) + failed_count (summary r)
      <> total_frames_to_extract (summary r).
Proof.
  eexists. split; [vm_compute; reflexivity|].
  cbn. repeat split; discriminate.
Qed.

(** ** Backend selection *)

(** C8: with backend 'auto' the executable is looked up once to choose the
    backend; the call is then served by the ffmpeg backend if that lookup
    found it and by the OpenCV backend otherwise, whatever later lookups
    answer: a run that finds ffmpeg first never falls back to OpenCV, and a
    run that does not find it is completed by OpenCV. *)
Theorem auto_backend_resolved_once (v : video_info) (video_path : pystr)
  (env : environment) (a : extract_args) :
  backend a = lit "auto" ->
  choose_backend env a
    = (if ffmpeg_on_path env 0 then lit "ffmpeg" else lit "opencv", 1%nat) /\
  (forall o, extract_frames v video_path env a = Ret o ->
             ran o = if ffmpeg_on_path env 0 then FFmpeg else OpenCV) /\
  (forall s e n, plan v env a = Ret (s, e, n) ->
     extract_frames v video_path env a =
       if ffmpeg_on_path env 0
       then r <- _extract_frames_ffmpeg v env a video_path n 1 s e ;;
            Ret (ByFFmpeg (fst r) (snd r))
       else Ret (ByOpenCV (extract_frames_opencv v env a s n e))).
Proof.
  intros Hb.
  assert (Hc : choose_backend env a
               = (if ffmpeg_on_path env 0 then lit "ffmpeg" else lit "opencv", 1%nat)).
  { unfold choose_backend, _ffmpeg_available. rewrite Hb. reflexivity. }
  split; [exact Hc|]. split.
  - intros o. unfold extract_frames.
    destruct (plan v env a) as [[[s e] n]|err]; [|discriminate].
    cbn [bind]. rewrite Hc.
    destruct (ffmpeg_on_path env 0); cbn [PyStr.eqb lit list_ascii_of_string].
    + vm_compute (PyStr.eqb _ _).
      destruct (_extract_frames_ffmpeg v env a video_path n 1 s e) as [r|err];
        cbn [bind]; [|discriminate].
      intros [= <-]. reflexivity.
    + vm_compute (PyStr.eqb _ _). intros [= <-]. reflexivity.
  - intros s e n Hp. unfold extract_frames. rewrite Hp. cbn [bind]. rewrite Hc.
    destruct (ffmpeg_on_path env 0); vm_compute (PyStr.eqb _ _); reflexivity.
Qed.

Lemma auto_backend_resolved_once_witness :
  backend (sample_args 2 true (lit "png")) = lit "auto" /\
  forall o,
    extract_frames (video_25fps 1000) (lit "in.mp4")
      (sample_env (fun _ => true) false) (sample_args 2 true (lit "png")) = Ret o ->
    ran o = OpenCV.
Proof.
  split; [reflexivity|].
  exact (proj1 (proj2 (auto_backend_resolved_once (video_25fps 1000) (lit "in.mp4")
                         (sample_env (fun _ => true) false)
                         (sample_args 2 true (lit "png")) eq_refl))).
Defined.

(** ** Unknown output formats *)


Section WrittenFiles.

Variable v : video_info.
Variable env : environment.
Variable a : extract_args.
Variable s : Z.
Variable total : Z.





End WrittenFiles.



(** ** Numbering of the files of the ffmpeg backend *)

(** The files ffmpeg writes are numbered consecutively from the start
    number, whatever the stride. *)
Lemma ffmpeg_image2_numbers (ext : pystr) (stride : Z) (decoded : list Z) (n number : Z) :
  map fst (ffmpeg_image2 ext stride n number decoded)
  = map (fun o => fmt_d 10 o ++ dot ++ ext)
      (frames_from number (length (ffmpeg_image2 ext stride n number decoded))).
Proof.
  revert n number. induction decoded as [|f r IH]; intros n number; [reflexivity|].
  cbn [ffmpeg_image2]. destruct (n mod stride =? 0).
  - cbn [map length frames_from fst]. f_equal. apply IH.
  - apply IH.
Qed.


(** C5 fails on the code: with stride 2 from frame 0, ffmpeg keeps the
    frames 0, 2 and 4 and numbers its files 0, 1 and 2.  The file that holds
    frame 2 is therefore renamed to the label of frame 1, "00-00-00-040",
    where the label of frame 2 is "00-00-00-080"; likewise for frame 4. *)
Theorem ffmpeg_file_numbers_ignore_stride :
  exists r cmd,
    extract_frames (video_25fps 1000) (lit "in.mp4")
      (sample_env (fun _ => true) true) (sample_args 2 true (lit "png"))
    = Ret (ByFFmpeg r cmd) /\
    map (fun f => (file_path f, file_frame f)) (written r)
    = [(lit "out/00-00-00-000.png", 0);
       (lit "out/00-00-00-040.png", 2);
       (lit "out/00-00-00-080.png", 4)] /\
    frame_to_timestamp (video_25fps 1000) 2 = lit "00-00-00-080" /\
    frame_to_timestamp (video_25fps 1000) 4 = lit "00-00-00-160".
Proof.
  do 2 eexists. split; [vm_compute; reflexivity|].
  repeat split; vm_compute; reflexivity.
Qed.

(** ** The fast preview fetch *)

#[export] Instance capture_laws (Frame : Type) : CursorLaws (capture Frame) Frame.
Proof.
  constructor; cbn; intros.
  - reflexivity.
  - reflexivity.
  - destruct (capture_frame c (cap_pos c)); reflexivity.
  - destruct (capture_frame c (cap_pos c)); reflexivity.
  - destruct (capture_frame c (cap_pos c)); reflexivity.
  - rewrite H. reflexivity.
  - rewrite H. reflexivity.
Qed.

Section FastFetchFacts.

Context {C Frame : Type} `{CursorLaws C Frame}.

(** The direct-seek branch returns the frame at the target index. *)
Lemma fast_seek_path_frame (target : Z) (c : C) :
  fst (fast_seek_path target c) = frame_at c target.
Proof.
  unfold fast_seek_path. now rewrite read_frame, get_set, frame_set.
Qed.

Lemma grab_times_effect (n : nat) (c : C) :
  (forall j, 0 <= j < Z.of_nat n -> frame_at c (get_pos c + j) <> None) ->
  get_pos (grab_times n c) = get_pos c + Z.of_nat n /\
  forall i, frame_at (grab_times n c) i = frame_at c i.
Proof.
  revert c. induction n as [|n IH]; intros c Hc.
  - cbn. split; [lia|reflexivity].
  - cbn [grab_times].
    destruct (frame_at c (get_pos c)) as [f|] eqn:Ef.
    2:{ exfalso. apply (Hc 0); [lia|]. now rewrite Z.add_0_r. }
    pose proof (grab_pos c f Ef) as Hp.
    destruct (IH (grab c)) as [IP IF].
    { intros j Hj. rewrite grab_video, Hp.
      replace (get_pos c + 1 + j) with (get_pos c + (j + 1)) by lia.
      apply Hc. lia. }
    split; [rewrite IP, Hp; lia|].
    intros i. now rewrite IF, grab_video.
Qed.

(** The small-forward-jump branch, entered with [diff = target - current],
    returns the frame before the target. *)
Lemma fast_grab_path_frame (diff : Z) (c : C) :
  0 < diff ->
  (forall j, 0 <= j < diff - 1 -> frame_at c (get_pos c + j) <> None) ->
  fst (fast_grab_path diff c) = frame_at c (get_pos c + diff - 1).
Proof.
  intros Hd Hc. unfold fast_grab_path.
  destruct (grab_times_effect (Z.to_nat (Z.max 0 (diff - 1))) c) as [GP GF].
  { intros j Hj. apply Hc. lia. }
  rewrite read_frame, GF, GP. f_equal. lia.
Qed.

End FastFetchFacts.

(** C4 fails on the code: on a four-frame video at 25 fps, second 0.04 is
    frame 1.  Asked from position 0 (a forward jump of one frame) the fetch
    takes the grab branch and returns frame 0; asked from position 3 it
    seeks and returns frame 1. *)
Theorem fast_fetch_branches_disagree :
  let v := video_25fps 4 in
  let video (pos : Z) := Some {| cap_frames := [0; 1; 2; 3]; cap_pos := pos |} in
  fast_target v (1 # 25) = 1 /\
  fst (get_frame_at_seconds_fast v (video 0) (1 # 25)) = Some 0 /\
  fst (get_frame_at_seconds_fast v (video 3) (1 # 25)) = Some 1.
Proof.
  repeat split; vm_compute; reflexivity.
Qed.

(** * Further properties of the code *)

(** ** The range and the errors of [timestamp_to_frame] *)

Lemma split_on_incl (sep : ascii) (s p : pystr) (c : ascii) :
  In p (split_on sep s) -> In c p -> In c s.
Proof.
  revert p. induction s as [|x r IH]; simpl; intros p Hp Hc.
  - destruct Hp as [<-|[]]. exact Hc.
  - destruct (Ascii.eqb x sep).
    + destruct Hp as [<-|Hp]; [destruct Hc|]. right. eapply IH; eassumption.
    + destruct (split_on sep r) as [|h t] eqn:E.
      * destruct Hp as [<-|[]]. destruct Hc as [<-|[]]. now left.
      * destruct Hp as [<-|Hp].
        -- destruct Hc as [<-|Hc]; [now left|]. right. apply (IH h); [now left|exact Hc].
        -- right. apply (IH p); [now right|exact Hc].
Qed.

Lemma replace_no_minus (t : pystr) : ~ In "-"%char (replace_char "-" ":" t).
Proof.
  unfold replace_char. rewrite in_map_iff. intros [c [E _]].
  destruct (Ascii.eqb_spec c "-"); [discriminate|congruence].
Qed.

(** No part of a time string contains a minus sign. *)
Lemma time_parts_no_minus (text p : pystr) :
  In p (time_parts text) -> ~ In "-"%char p.
Proof.
  intros Hp Hc. apply (replace_no_minus text).
  eapply split_on_incl; eassumption.
Qed.

(** The float [timestamp_to_frame] multiplies the frame rate with: it is
    not negative when it is finite, and never minus infinity. *)
Lemma total_seconds_sign (text p0 p1 p2 : pystr) (rest : list pystr) (h m : Z) (x : pyfloat) :
  time_parts text = p0 :: p1 :: p2 :: rest ->
  py_int p0 = Some h -> py_int p1 = Some m -> py_float p2 = Some x ->
  0 <= h /\ 0 <= m /\ (forall s, x = Fin s -> (0 <= s)%Q).
Proof.
  intros E E0 E1 E2.
  assert (N0 : ~ In "-"%char p0) by (apply (time_parts_no_minus text); rewrite E; simpl; auto).
  assert (N1 : ~ In "-"%char p1) by (apply (time_parts_no_minus text); rewrite E; simpl; auto).
  assert (N2 : ~ In "-"%char p2) by (apply (time_parts_no_minus text); rewrite E; simpl; auto).
  split; [|split].
  - apply (py_int_nonneg p0); assumption.
  - apply (py_int_nonneg p1); assumption.
  - intros s ->. apply (py_float_nonneg p2); assumption.
Qed.

Lemma timestamp_to_frame_bounds (v : video_info) (text : pystr) (n : Z) :
  (0 <= fps v)%Q -> 1 <= total_frames v ->
  timestamp_to_frame v text = Ret n -> 0 <= n <= total_frames v - 1.
Proof.
  intros Hf Ht.
  destruct (time_parts text) as [|p0 [|p1 [|p2 rest]]] eqn:E;
    try (unfold timestamp_to_frame, timestamp_to_frame_try; fold (time_parts text);
         rewrite E; intros [= <-]; lia).
  destruct (py_int p0) as [h|] eqn:E0;
    [|unfold timestamp_to_frame, timestamp_to_frame_try; fold (time_parts text);
      rewrite E, E0; intros [= <-]; lia].
  destruct (py_int p1) as [m|] eqn:E1;
    [|unfold timestamp_to_frame, timestamp_to_frame_try; fold (time_parts text);
      rewrite E, E0, E1; intros [= <-]; lia].
  destruct (py_float p2) as [x|] eqn:E2;
    [|unfold timestamp_to_frame, timestamp_to_frame_try; fold (time_parts text);
      rewrite E, E0, E1, E2; intros [= <-]; lia].
  rewrite (timestamp_to_frame_fields v text p0 p1 p2 rest h m x E E0 E1 E2).
  destruct (total_seconds_sign text p0 p1 p2 rest h m x E E0 E1 E2) as [Hh [Hm Hs]].
  destruct x as [s|neg|]; cbn [f_add f_mul int_of_float].
  - specialize (Hs s eq_refl).
    assert (Hhm : (0 <= inject_Z (h * 3600 + m * 60))%Q).
    { change 0%Q with (inject_Z 0). rewrite <- Zle_Qle. lia. }
    assert (Hx : (0 <= (inject_Z (h * 3600 + m * 60) + s) * fps v)%Q).
    { apply Qmult_le_0_compat; [lra|assumption]. }
    rewrite Qtrunc_nonneg by assumption. apply Qfloor_nonneg in Hx.
    revert Hx. generalize (Qfloor ((inject_Z (h * 3600 + m * 60) + s) * fps v)).
    intros F HF [= <-]. lia.
  - destruct (Qis_zero (fps v)); cbn [int_of_float]; [intros [= <-]; lia|discriminate].
  - intros [= <-]. lia.
Qed.

(** Whatever the text, a frame [timestamp_to_frame] returns lies in
    [[0, total_frames - 1]], for a frame rate that is not negative and a
    video of at least one frame. *)
Theorem timestamp_to_frame_in_range (v : video_info) (text : pystr) (n : Z) :
  (0 <= fps v)%Q -> 1 <= total_frames v ->
  timestamp_to_frame v text = Ret n -> 0 <= n <= total_frames v - 1.
Proof. apply timestamp_to_frame_bounds. Qed.

Lemma timestamp_to_frame_in_range_witness :
  (0 <= fps (video_25fps 1000))%Q /\ 1 <= total_frames (video_25fps 1000) /\
  timestamp_to_frame (video_25fps 1000) (lit "99:00:00") = Ret 999 /\
  0 <= 999 <= total_frames (video_25fps 1000) - 1.
Proof.
  assert (E : timestamp_to_frame (video_25fps 1000) (lit "99:00:00") = Ret 999)
    by (vm_compute; reflexivity).
  split; [vm_compute; discriminate|]. split; [cbn; lia|]. split; [exact E|].
  apply (timestamp_to_frame_in_range (video_25fps 1000) (lit "99:00:00") 999).
  - vm_compute; discriminate.
  - cbn; lia.
  - exact E.
Defined.




(** ** The shape of the timestamp label *)











(** ** What a run of the direct backend leaves behind *)

Lemma events_from_app (total k : Z) (l1 l2 : list pystr) :
  events_from total k (l1 ++ l2)
  = events_from total k l1 ++ events_from total (k + Z.of_nat (length l1)) l2.
Proof.
  revert k. induction l1 as [|p l1 IH]; intros k.
  - cbn. now rewrite Z.add_0_r.
  - cbn [app events_from length]. rewrite IH. do 3 f_equal. lia.
Qed.

Section RunFacts.

Variable v : video_info.
Variable env : environment.
Variable a : extract_args.
Variable s : Z.
Variable total : Z.

Lemma report_next (done : list Z) (i : Z) (st : loop_state) :
  reported_for v a total st done ->
  report a (st_progress st + 1) total (frame_path v a i) (st_reported st)
  = if progress_callback a
    then events_from total 1 (map (frame_path v a) (done ++ [i])) else [].
Proof.
  intros [Hp Hr]. unfold report. rewrite Hr.
  destruct (progress_callback a); [|reflexivity].
  rewrite map_app, events_from_app, length_map, Hp. cbn [map events_from].
  do 3 f_equal. lia.
Qed.

(** One iteration, in terms of the frame's fate. *)
Lemma loop_body_exact (i : Z) (st : loop_state) :
  let st' := loop_body v env a s total i st in
  st_written st' = st_written st ++ (if saved env a s i then [file_of v a i] else []) /\
  succeeded st' = succeeded st + (if saved env a s i then 1 else 0) /\
  miscarried st'
    = miscarried st + (if lost env i || unsaved env a s i then 1 else 0) /\
  st_futures st'
    = st_futures st
      ++ (if use_threading a && taken env a s i
          then [(save_ok env i, frame_path v a i)] else []) /\
  (use_threading a = true ->
   st_progress st' = st_progress st /\ st_reported st' = st_reported st) /\
  (use_threading a = false ->
   forall done, reported_for v a total st done ->
     reported_for v a total st' (done ++ (if saved env a s i then [i] else []))).
Proof.
  cbv zeta.
  unfold saved, unsaved, taken, lost, succeeded, miscarried, loop_body, selected, file_of,
    save_and_report.
  destruct (read_ok env i); cbn [negb andb orb];
    [destruct ((i - s) mod Z.max 1 (frame_interval a) =? 0); cbn [andb];
     [destruct (save_ok env i), (use_threading a)|]|];
    cbn [st_written st_extracted st_failed st_futures st_progress st_reported
         negb andb orb];
    rewrite ?andb_false_r, ?filter_app, ?length_app, ?app_nil_r;
    cbn [filter fst negb length];
    (split; [|split; [|split; [|split; [|split]]]]);
    try reflexivity; try lia;
    try (intros _; split; reflexivity);
    try (intros Hth; discriminate Hth);
    intros _ done Hd; rewrite ?app_nil_r; try exact Hd.
  - pose proof (report_next done i st Hd) as R. destruct Hd as [Hp Hr].
    split; [|exact R]. cbn [st_progress]. rewrite length_app, Hp. cbn [length]. lia.
Qed.

Lemma decode_loop_exact (n : nat) (first : Z) (st : loop_state) :
  let st' := decode_loop v env a s total n first st in
  let frames := frames_from first n in
  st_written st' = st_written st ++ map (file_of v a) (filter (saved env a s) frames) /\
  succeeded st' = succeeded st + count (saved env a s) frames /\
  miscarried st'
    = miscarried st + count (fun i => lost env i || unsaved env a s i) frames /\
  st_futures st'
    = st_futures st
      ++ (if use_threading a
          then map (fun i => (save_ok env i, frame_path v a i))
                 (filter (taken env a s) frames)
          else []) /\
  (use_threading a = true ->
   st_progress st' = st_progress st /\ st_reported st' = st_reported st) /\
  (use_threading a = false ->
   forall done, reported_for v a total st done ->
     reported_for v a total st' (done ++ filter (saved env a s) frames)).
Proof.
  cbv zeta. unfold count. revert first st.
  induction n as [|n IH]; intros first st.
  - cbn [decode_loop frames_from filter map length]. rewrite !app_nil_r.
    split; [|split; [|split; [|split; [|split]]]]; try reflexivity; try lia.
    + destruct (use_threading a); now rewrite app_nil_r.
    + intros _. split; reflexivity.
    + intros _ done Hd. now rewrite app_nil_r.
  - cbn [decode_loop frames_from filter].
    destruct (IH (first + 1) (loop_body v env a s total first st))
      as [IW [IS [IM [IF [IT IQ]]]]].
    destruct (loop_body_exact first st) as [BW [BS [BM [BF [BT BQ]]]]].
    cbv zeta in BW, BS, BM, BF, BT, BQ.
    rewrite IW, IS, IM, IF, BW, BS, BM, BF.
    split; [|split; [|split; [|split; [|split]]]].
    + destruct (saved env a s first); cbn [map app]; now rewrite <- app_assoc.
    + destruct (saved env a s first); cbn [length]; lia.
    + destruct (lost env first || unsaved env a s first); cbn [length]; lia.
    + destruct (use_threading a), (taken env a s first); cbn [andb map app];
        rewrite <- ?app_assoc; reflexivity.
    + intros Hth. destruct (IT Hth) as [-> ->]. exact (BT Hth).
    + intros Hth done Hd. pose proof (IQ Hth _ (BQ Hth done Hd)) as R.
      destruct (saved env a s first); cbn [app] in *;
        rewrite <- ?app_assoc in R; rewrite ?app_nil_r in R; exact R.
Qed.

(** Collecting the futures [futs] of a state that has reported [k] events. *)
Lemma collect_exact (futs : list (bool * pystr)) (st : loop_state) :
  let st' := fold_left (collect a total) futs st in
  st_extracted st' = st_extracted st + Z.of_nat (length (filter fst futs)) /\
  st_failed st'
    = st_failed st + Z.of_nat (length (filter (fun f => negb (fst f)) futs)) /\
  st_written st' = st_written st /\
  st_reported st'
    = st_reported st
      ++ (if progress_callback a
          then events_from total (st_progress st + 1) (map snd futs) else []).
Proof.
  cbv zeta. revert st. induction futs as [|[ok p] futs IH]; intros st.
  - cbn. destruct (progress_callback a); rewrite ?app_nil_r; repeat split; lia.
  - cbn [fold_left]. destruct (IH (collect a total st (ok, p))) as [IE [IF [IW IR]]].
    rewrite IE, IF, IW, IR. unfold collect, report. cbn [st_extracted st_failed
      st_written st_reported st_progress filter fst snd map events_from].
    destruct ok, (progress_callback a); cbn [negb length];
      rewrite <- ?app_assoc; repeat split; cbn [app]; try reflexivity; lia.
Qed.

(** The exact outcome of a run over the frames [s .. e]. *)
Lemma extract_frames_opencv_exact (e : Z) :
  let r := extract_frames_opencv v env a s total e in
  let frames := frames_from s (Z.to_nat (e - s + 1)) in
  written r = map (file_of v a) (filter (saved env a s) frames) /\
  extracted_count (summary r) = count (saved env a s) frames /\
  failed_count (summary r) = count (fun i => lost env i || unsaved env a s i) frames /\
  reported r
  = if progress_callback a
    then events_from total 1
           (map (frame_path v a)
              (filter (if use_threading a then taken env a s else saved env a s) frames))
    else [].
Proof.
  cbv zeta. unfold extract_frames_opencv.
  cbn [written summary extracted_count failed_count reported].
  set (n := Z.to_nat (e - s + 1)).
  destruct (decode_loop_exact n s loop_init) as [LW [LS [LM [LF [LT LQ]]]]].
  cbv zeta in LW, LS, LM, LF, LT, LQ.
  set (st := decode_loop v env a s total n s loop_init) in *.
  destruct (collect_exact (st_futures st) st) as [CE [CF [CW CR]]].
  cbv zeta in CE, CF, CW, CR.
  unfold succeeded in LS. unfold miscarried in LM.
  cbn [loop_init st_extracted st_failed st_futures st_written filter length app] in LS, LM, LW, LF.
  rewrite CE, CF, CW, CR, LW.
  repeat split; try lia.
  destruct (use_threading a) eqn:Eth.
  - destruct (LT eq_refl) as [-> ->]. cbn [loop_init st_progress st_reported app].
    rewrite LF. rewrite map_map. cbn [snd]. reflexivity.
  - rewrite LF. cbn [map events_from]. destruct (LQ eq_refl []) as [_ R].
    { split; cbn; [reflexivity|now destruct (progress_callback a)]. }
    rewrite R. cbn [app]. destruct (progress_callback a); now rewrite ?app_nil_r.
Qed.

End RunFacts.


Lemma file_frame_file_of (v : video_info) (a : extract_args) (l : list Z) :
  map file_frame (map (file_of v a) l) = l.
Proof.
  induction l as [|i l IH]; [reflexivity|]. cbn [map]. now rewrite IH.
Qed.



(** The progress callback is called with the counts 1, 2, 3, ... and the
    planned total: once per frame handed to a worker when saving is
    threaded (failed saves included), once per file written when it is not. *)
Theorem progress_events_are_numbered (v : video_info) (env : environment)
  (a : extract_args) (s e total : Z) :
  let r := extract_frames_opencv v env a s total e in
  reported r
  = if progress_callback a
    then events_from total 1
           (map (frame_path v a)
              (if use_threading a then dispatched r else map file_frame (written r)))
    else [].
Proof.
  cbv zeta.
  destruct (extract_frames_opencv_exact v env a s total e) as [EW [_ [_ ER]]].
  destruct (extract_frames_opencv_effect v env a s total e) as [ED _].
  cbv zeta in EW, ER, ED. rewrite ER, ED, EW.
  destruct (progress_callback a); [|reflexivity].
  destruct (use_threading a); [reflexivity|].
  now rewrite file_frame_file_of.
Qed.

(** ** Edge cases of [extract_frames] *)

Lemma pystr_eqb_eq (x y : pystr) : PyStr.eqb x y = true <-> x = y.
Proof.
  revert y. induction x as [|c x IH]; intros [|d y]; simpl; try (split; congruence).
  rewrite andb_true_iff, Ascii.eqb_eq, IH. split; [intros [-> ->]; reflexivity|].
  intros [= -> ->]. split; reflexivity.
Qed.

Lemma pystr_eqb_neq (x y : pystr) : x <> y -> PyStr.eqb x y = false.
Proof.
  intros Hn. destruct (PyStr.eqb x y) eqn:E; [|reflexivity].
  apply pystr_eqb_eq in E. contradiction.
Qed.

(** The frame range of a successful [plan]. *)
Lemma plan_bounds (v : video_info) (env : environment) (a : extract_args) (s e n : Z) :
  plan v env a = Ret (s, e, n) -> 0 <= s /\ s < e /\ e <= total_frames v - 1.
Proof.
  unfold plan. destruct (cap_opened env); cbn [negb]; [|discriminate].
  destruct (timestamp_to_frame v (start_time a)) as [s0|]; cbn [bind]; [|discriminate].
  destruct (if truthy (end_time a) then _ else _) as [e0|]; cbn [bind]; [|discriminate].
  destruct (Z.leb_spec (Z.min e0 (total_frames v - 1)) (Z.max 0 s0)); [discriminate|].
  destruct (range_len _ _ _) as [m|]; cbn [bind]; [|discriminate].
  intros [= <- <- <-]. lia.
Qed.

(** A frame interval of zero makes every call fail: the planned count is
    the length of a Python range with step zero. *)
Theorem zero_interval_always_raises (v : video_info) (video_path : pystr)
  (env : environment) (a : extract_args) :
  frame_interval a = 0 -> exists err, extract_frames v video_path env a = Raise err.
Proof.
  intros Hk. unfold extract_frames.
  destruct (plan v env a) as [[[s e] n]|err] eqn:Hp; [|exists err; reflexivity].
  apply plan_range in Hp. destruct Hp as [_ Hn].
  unfold range_len in Hn. rewrite Hk in Hn. discriminate Hn.
Qed.

Lemma zero_interval_always_raises_witness :
  frame_interval (sample_args 0 true (lit "png")) = 0 /\
  exists err,
    extract_frames (video_25fps 1000) (lit "in.mp4") (sample_env (fun _ => true) false)
      (sample_args 0 true (lit "png")) = Raise err.
Proof.
  split; [reflexivity|].
  exact (zero_interval_always_raises (video_25fps 1000) (lit "in.mp4")
           (sample_env (fun _ => true) false) (sample_args 0 true (lit "png")) eq_refl).
Defined.

(** With a negative frame interval the planned count is 0, yet the direct
    backend saves every frame it reads: its stride is [max(1, interval)]. *)
Theorem negative_interval_plans_nothing_saves_all (v : video_info)
  (env : environment) (a : extract_args) (s e n : Z) :
  frame_interval a < 0 -> plan v env a = Ret (s, e, n) ->
  n = 0 /\
  dispatched (extract_frames_opencv v env a s n e)
  = filter (read_ok env) (frames_from s (Z.to_nat (e - s + 1))).
Proof.
  intros Hk Hp. pose proof (plan_range v env a s e n Hp) as [Hse Hn].
  split.
  - unfold range_len in Hn.
    destruct (Z.eqb_spec (frame_interval a) 0); [lia|].
    destruct (Z.ltb_spec 0 (frame_interval a)); [lia|].
    destruct (Z.ltb_spec (e + 1) s); [lia|]. now injection Hn as <-.
  - destruct (extract_frames_opencv_effect v env a s n e) as [ED _].
    cbv zeta in ED. rewrite ED. apply filter_ext_in_Z. intros i _.
    unfold taken, selected. rewrite Z.max_l by lia. rewrite Z.mod_1_r. cbn.
    apply andb_true_r.
Qed.

Lemma negative_interval_plans_nothing_saves_all_witness :
  frame_interval (sample_args (-2) true (lit "png")) < 0 /\
  plan (video_25fps 1000) (sample_env (fun _ => true) false)
    (sample_args (-2) true (lit "png")) = Ret (0, 5, 0) /\
  dispatched (extract_frames_opencv (video_25fps 1000) (sample_env (fun _ => true) false)
                (sample_args (-2) true (lit "png")) 0 0 5)
  = filter (fun _ => true) (frames_from 0 (Z.to_nat (5 - 0 + 1))).
Proof.
  assert (Hp : plan (video_25fps 1000) (sample_env (fun _ => true) false)
                 (sample_args (-2) true (lit "png")) = Ret (0, 5, 0))
    by (vm_compute; reflexivity).
  split; [cbn; lia|]. split; [exact Hp|].
  exact (proj2 (negative_interval_plans_nothing_saves_all (video_25fps 1000)
                  (sample_env (fun _ => true) false) (sample_args (-2) true (lit "png"))
                  0 5 0 ltac:(cbn; lia) Hp)).
Defined.

(** A video of at most one frame cannot be extracted: every call fails,
    because the frame range must hold at least two frames. *)
Theorem single_frame_video_always_raises (v : video_info) (video_path : pystr)
  (env : environment) (a : extract_args) :
  total_frames v <= 1 -> exists err, extract_frames v video_path env a = Raise err.
Proof.
  intros Ht. unfold extract_frames.
  destruct (plan v env a) as [[[s e] n]|err] eqn:Hp; [|exists err; reflexivity].
  apply plan_bounds in Hp. lia.
Qed.

Lemma single_frame_video_always_raises_witness :
  total_frames (video_25fps 1) <= 1 /\
  exists err,
    extract_frames (video_25fps 1) (lit "in.mp4") (sample_env (fun _ => true) false)
      (sample_args 1 true (lit "png")) = Raise err.
Proof.
  split; [cbn; lia|].
  apply (single_frame_video_always_raises (video_25fps 1) (lit "in.mp4")
           (sample_env (fun _ => true) false) (sample_args 1 true (lit "png"))).
  cbn. lia.
Defined.

(** A backend name other than 'auto' and 'ffmpeg' is served by the direct
    backend, without any lookup of the ffmpeg executable and without error. *)
Theorem unknown_backend_uses_opencv (v : video_info) (video_path : pystr)
  (env : environment) (a : extract_args) (s e n : Z) :
  backend a <> lit "auto" -> backend a <> lit "ffmpeg" ->
  plan v env a = Ret (s, e, n) ->
  choose_backend env a = (backend a, 0%nat) /\
  extract_frames v video_path env a = Ret (ByOpenCV (extract_frames_opencv v env a s n e)).
Proof.
  intros Ha Hf Hp.
  assert (Hc : choose_backend env a = (backend a, 0%nat)).
  { unfold choose_backend. now rewrite (pystr_eqb_neq _ _ Ha). }
  split; [exact Hc|].
  unfold extract_frames. rewrite Hp. cbn [bind]. rewrite Hc.
  now rewrite (pystr_eqb_neq _ _ Hf).
Qed.

Lemma unknown_backend_uses_opencv_witness :
  backend (sample_args_for (lit "gstreamer")) <> lit "auto" /\
  backend (sample_args_for (lit "gstreamer")) <> lit "ffmpeg" /\
  extract_frames (video_25fps 1000) (lit "in.mp4") (sample_env (fun _ => true) true)
    (sample_args_for (lit "gstreamer"))
  = Ret (ByOpenCV (extract_frames_opencv (video_25fps 1000)
                     (sample_env (fun _ => true) true)
                     (sample_args_for (lit "gstreamer")) 0 3 5)).
Proof.
  split; [discriminate|]. split; [discriminate|].
  apply (unknown_backend_uses_opencv (video_25fps 1000) (lit "in.mp4")
           (sample_env (fun _ => true) true) (sample_args_for (lit "gstreamer")) 0 5 3).
  - discriminate.
  - discriminate.
  - vm_compute. reflexivity.
Defined.

(** When the ffmpeg backend is asked for by name, a missing executable or a
    non-zero exit status of the process fails the call with [RuntimeError]:
    there is no fall-back to the direct backend and no file is kept. *)
Theorem ffmpeg_failure_raises (v : video_info) (video_path : pystr)
  (env : environment) (a : extract_args) (s e n : Z) :
  backend a = lit "ffmpeg" -> plan v env a = Ret (s, e, n) ->
  ffmpeg_on_path env 0 = false \/ ffmpeg_returncode env <> 0 ->
  extract_frames v video_path env a = Raise RuntimeError.
Proof.
  intros Hb Hp Hfail. unfold extract_frames. rewrite Hp. cbn [bind].
  unfold choose_backend. rewrite Hb.
  change (PyStr.eqb (lit "ffmpeg") (lit "auto")) with false. cbv iota.
  change (PyStr.eqb (lit "ffmpeg") (lit "ffmpeg")) with true. cbv iota.
  unfold _extract_frames_ffmpeg, _ffmpeg_available.
  destruct (ffmpeg_on_path env 0); cbn [negb]; [|reflexivity].
  destruct Hfail as [Hf|Hr]; [discriminate|].
  destruct (Z.eqb_spec (ffmpeg_returncode env) 0); [contradiction|reflexivity].
Qed.

Lemma ffmpeg_failure_raises_witness :
  backend (sample_args_for (lit "ffmpeg")) = lit "ffmpeg" /\
  ffmpeg_on_path (sample_env (fun _ => true) false) 0 = false /\
  extract_frames (video_25fps 1000) (lit "in.mp4") (sample_env (fun _ => true) false)
    (sample_args_for (lit "ffmpeg"))
  = Raise RuntimeError.
Proof.
  split; [reflexivity|]. split; [reflexivity|].
  apply (ffmpeg_failure_raises (video_25fps 1000) (lit "in.mp4")
           (sample_env (fun _ => true) false) (sample_args_for (lit "ffmpeg")) 0 5 3).
  - reflexivity.
  - vm_compute. reflexivity.
  - left. reflexivity.
Defined.

(** ** The files and counts of the ffmpeg backend *)





















(** ** Fetching single frames *)

(** A text of fewer than three parts is frame 0. *)
Lemma timestamp_to_frame_short (v : video_info) (text : pystr) :
  (length (time_parts text) < 3)%nat -> timestamp_to_frame v text = Ret 0.
Proof.
  unfold timestamp_to_frame, timestamp_to_frame_try. fold (time_parts text).
  destruct (time_parts text) as [|p0 [|p1 [|p2 rest]]]; simpl; intros Hl;
    try reflexivity; lia.
Qed.

Section FrameAccessFacts.

Context {C Frame : Type} `{CursorLaws C Frame}.

(** [get_frame_at_position] returns the frame with the index asked for, and
    leaves the cursor alone when the index is outside the video. *)
Theorem get_frame_at_position_in_and_out_of_range (v : video_info) (c : C) (n : Z) :
  (0 <= n < total_frames v ->
   fst (get_frame_at_position v (Some c) n) = frame_at c n) /\
  (n < 0 \/ total_frames v <= n ->
   get_frame_at_position v (Some c) n = (None, Some c)).
Proof.
  unfold get_frame_at_position. split.
  - intros Hn.
    destruct (Z.ltb_spec n 0); [lia|]. destruct (Z.leb_spec (total_frames v) n); [lia|].
    cbn [orb].
    pose proof (read_frame (set_pos c n)) as R.
    destruct (read (set_pos c n)) as [frame c']. cbn [fst] in *.
    now rewrite R, get_set, frame_set.
  - intros Hn.
    destruct (Z.ltb_spec n 0); [reflexivity|].
    destruct (Z.leb_spec (total_frames v) n); [reflexivity|lia].
Qed.

(** [get_frame_at_time] shows the frame the time converts to; for a text of
    fewer than three parts that is the first frame of the video, not a
    failure. *)
Theorem get_frame_at_time_frame (v : video_info) (c : C) (text : pystr) :
  (forall n, timestamp_to_frame v text = Ret n ->
     exists c', get_frame_at_time v (Some c) text = Ret (frame_at c n, Some c')) /\
  ((length (time_parts text) < 3)%nat ->
     exists c', get_frame_at_time v (Some c) text = Ret (frame_at c 0, Some c')).
Proof.
  assert (G : forall n, timestamp_to_frame v text = Ret n ->
            exists c', get_frame_at_time v (Some c) text = Ret (frame_at c n, Some c')).
  { intros n Hn. unfold get_frame_at_time. rewrite Hn. cbn [bind].
    pose proof (read_frame (set_pos c n)) as R.
    destruct (read (set_pos c n)) as [frame c']. cbn [fst] in R.
    exists c'. now rewrite R, get_set, frame_set. }
  split; [exact G|].
  intros Hl. apply G. now apply timestamp_to_frame_short.
Qed.

(** When the frame asked for is not ahead of the cursor, or further ahead
    than the threshold, the fast fetch seeks and returns that very frame; a
    time that is not positive asks for frame 0. *)
Theorem fast_fetch_seeks_to_target (v : video_info) (c : C) (seconds : Q) :
  (fast_target v seconds - get_pos c <= 0 \/
   fast_threshold v < fast_target v seconds - get_pos c ->
   fst (get_frame_at_seconds_fast v (Some c) seconds)
   = frame_at c (fast_target v seconds)) /\
  ((seconds <= 0)%Q -> fast_target v seconds = 0).
Proof.
  split.
  - intros Hd. unfold get_frame_at_seconds_fast.
    assert (E : (0 <? fast_target v seconds - get_pos c)
                && (fast_target v seconds - get_pos c <=? fast_threshold v) = false).
    { destruct Hd as [Hd|Hd].
      - apply andb_false_iff. left. apply Z.ltb_ge. exact Hd.
      - apply andb_false_iff. right. apply Z.leb_gt. exact Hd. }
    rewrite E.
    pose proof (fast_seek_path_frame (fast_target v seconds) c) as S.
    destruct (fast_seek_path (fast_target v seconds) c) as [frame c'].
    exact S.
  - intros Hs. unfold fast_target, py_max.
    assert (E : Qle_bool seconds 0 = true) by now apply Qle_bool_iff.
    rewrite E. cbn [negb]. destruct (fast_fps v) as [num den]. reflexivity.
Qed.

End FrameAccessFacts.

Lemma get_frame_at_position_in_and_out_of_range_witness :
  fst (get_frame_at_position (video_25fps 4)
         (Some {| cap_frames := [10; 11; 12; 13]; cap_pos := 0 |}) 2) = Some 12 /\
  get_frame_at_position (video_25fps 4)
    (Some {| cap_frames := [10; 11; 12; 13]; cap_pos := 0 |}) 4
  = (None, Some {| cap_frames := [10; 11; 12; 13]; cap_pos := 0 |}).
Proof.
  pose proof (get_frame_at_position_in_and_out_of_range (video_25fps 4)
                {| cap_frames := [10; 11; 12; 13]; cap_pos := 0 |}) as G.
  split.
  - apply (proj1 (G 2)). cbn. lia.
  - apply (proj2 (G 4)). right. cbn. lia.
Defined.

Lemma get_frame_at_time_frame_witness :
  (length (time_parts (lit "00:05")) < 3)%nat /\
  exists c',
    get_frame_at_time (video_25fps 4)
      (Some {| cap_frames := [10; 11; 12; 13]; cap_pos := 2 |}) (lit "00:05")
    = Ret (Some 10, Some c').
Proof.
  split; [cbn; lia|].
  destruct (proj2 (get_frame_at_time_frame (video_25fps 4)
                     {| cap_frames := [10; 11; 12; 13]; cap_pos := 2 |} (lit "00:05"))
              ltac:(cbn; lia)) as [c' E].
  exists c'. exact E.
Defined.

Lemma fast_fetch_seeks_to_target_witness :
  fast_target (video_25fps 4) (1 # 25)
    - get_pos {| cap_frames := [10; 11; 12; 13]; cap_pos := 3 |} <= 0 /\
  fst (get_frame_at_seconds_fast (video_25fps 4)
         (Some {| cap_frames := [10; 11; 12; 13]; cap_pos := 3 |}) (1 # 25))
  = Some 11.
Proof.
  split; [vm_compute; discriminate|].
  exact (proj1 (fast_fetch_seeks_to_target (video_25fps 4)
                  {| cap_frames := [10; 11; 12; 13]; cap_pos := 3 |} (1 # 25))
           (or_introl (fun H : (-2 ?= 0) = Gt => ltac:(discriminate H)))).
Defined.

(** ** The time strings of the graphical interface *)

Lemma py_max_zero (x : Q) : (0 <= py_max 0 x)%Q /\ ((0 <= x)%Q -> (py_max 0 x == x)%Q).
Proof.
  unfold py_max. destruct (Qle_bool x 0) eqn:E; cbn [negb].
  - apply Qle_bool_iff in E. split; [apply Qle_refl|]. intros Hx. lra.
  - split; [|intros _; reflexivity].
    destruct (Qlt_le_dec x 0) as [Hlt|Hge]; [|assumption].
    exfalso. apply Qlt_le_weak, Qle_bool_iff in Hlt. congruence.
Qed.

(** The text [HH:MM:SS] of three non-negative fields. *)
Lemma clock_text_parts (hh mm ss : Z) :
  0 <= hh -> 0 <= mm -> 0 <= ss ->
  time_parts (fmt_d 2 hh ++ colon ++ fmt_d 2 mm ++ colon ++ fmt_d 2 ss)
    = [fmt_d 2 hh; fmt_d 2 mm; fmt_d 2 ss] /\
  py_int (fmt_d 2 hh) = Some hh /\ py_int (fmt_d 2 mm) = Some mm /\
  py_float (fmt_d 2 ss) = Some (Fin (inject_Z ss)).
Proof.
  intros H0 H1 H2.
  destruct (fmt_d_field 2 hh H0) as [A0 [B0 V0]].
  destruct (fmt_d_field 2 mm H1) as [A1 [B1 V1]].
  destruct (fmt_d_field 2 ss H2) as [A2 [B2 V2]].
  split; [|split; [|split]].
  - apply time_parts_three. exists ":"%char, ":"%char.
    repeat split; try reflexivity; now apply all_digits_no_delim.
  - rewrite py_int_digits, V0, Z2N.id by assumption. reflexivity.
  - rewrite py_int_digits, V1, Z2N.id by assumption. reflexivity.
  - rewrite py_float_digits, V2, Z2N.id by assumption. reflexivity.
Qed.

(** The clock fields of a whole number of seconds. *)
Lemma clock_of_seconds (T : Z) :
  0 <= T ->
  0 <= T / 3600 /\ 0 <= T mod 3600 / 60 < 60 /\ 0 <= T mod 60 < 60 /\
  T / 3600 * 3600 + T mod 3600 / 60 * 60 + T mod 60 = T.
Proof.
  intros HT.
  pose proof (Z.div_mod T 3600 ltac:(lia)).
  pose proof (Z.mod_pos_bound T 3600 ltac:(lia)).
  pose proof (Z.div_mod (T mod 3600) 60 ltac:(lia)).
  pose proof (Z.mod_pos_bound (T mod 3600) 60 ltac:(lia)).
  pose proof (Z.mod_pos_bound T 60 ltac:(lia)).
  assert ((T mod 3600) mod 60 = T mod 60)
    by (apply Z.mod_mod_divide; exists 60; reflexivity).
  assert (0 <= T / 3600) by (apply Z.div_pos; lia).
  assert (0 <= T mod 3600 / 60 < 60).
  { split; [apply Z.div_pos; lia|apply Z.div_lt_upper_bound; lia]. }
  repeat split; lia.
Qed.

(** [seconds_to_hms] prints the clock fields of the whole second. *)
Lemma seconds_to_hms_fields (x : Q) :
  let T := Qfloor (py_max 0 x) in
  seconds_to_hms x
  = fmt_d 2 (T / 3600) ++ colon ++ fmt_d 2 (T mod 3600 / 60) ++ colon ++ fmt_d 2 (T mod 60)
  /\ 0 <= T.
Proof.
  cbv zeta. destruct (py_max_zero x) as [Hp _].
  unfold seconds_to_hms. cbv zeta.
  destruct (clock_fields _ Hp) as [EH [EM [ES _]]]. rewrite EH, EM, ES.
  split; [reflexivity|now apply Qfloor_nonneg].
Qed.

(** [format_duration] prints what [seconds_to_hms] prints, without the hour
    field when the duration is under an hour. *)
Theorem format_duration_drops_zero_hours (x : Q) :
  (0 <= x)%Q ->
  ((x < inject_Z 3600)%Q -> seconds_to_hms x = lit "00:" ++ format_duration x) /\
  ((inject_Z 3600 <= x)%Q -> seconds_to_hms x = format_duration x).
Proof.
  intros Hx.
  destruct (seconds_to_hms_fields x) as [E HT]. cbv zeta in E, HT. rewrite E.
  destruct (py_max_zero x) as [_ Hm]. specialize (Hm Hx).
  rewrite (Qfloor_comp _ _ Hm) in *.
  unfold format_duration. cbv zeta.
  destruct (clock_fields x Hx) as [EH [EM [ES _]]]. rewrite EH, EM, ES.
  pose proof (Qfloor_le x) as H1. pose proof (Qlt_floor x) as H2.
  split; intros Hc.
  - assert (Hlt : Qfloor x < 3600) by (rewrite Zlt_Qlt; lra).
    rewrite (Z.div_small (Qfloor x) 3600) by lia. reflexivity.
  - assert (Hge : 3600 <= Qfloor x).
    { apply Qfloor_resp_le in Hc. now rewrite Qfloor_Z in Hc. }
    assert (Hh : 0 < Qfloor x / 3600) by (apply Z.div_str_pos; lia).
    apply Z.ltb_lt in Hh. now rewrite Hh.
Qed.

Lemma format_duration_drops_zero_hours_witness :
  (0 <= 125 # 1)%Q /\ ((125 # 1) < inject_Z 3600)%Q /\
  seconds_to_hms (125 # 1) = lit "00:" ++ format_duration (125 # 1).
Proof.
  split; [vm_compute; discriminate|]. split; [reflexivity|].
  apply (proj1 (format_duration_drops_zero_hours (125 # 1)
                  (fun H : (0 * 1 ?= 125 * 1) = Gt => ltac:(discriminate H)))).
  reflexivity.
Defined.


(** [validate_time_format] accepts what [seconds_to_hms] prints exactly for
    times of less than a day. *)
Theorem seconds_to_hms_valid_below_a_day (x : Q) :
  validate_time_format (seconds_to_hms x) = true <-> (x < inject_Z 86400)%Q.
Proof.
  destruct (seconds_to_hms_fields x) as [E HT]. cbv zeta in E, HT. rewrite E.
  destruct (py_max_zero x) as [Hp Hm].
  set (T := Qfloor (py_max 0 x)) in *.
  destruct (clock_of_seconds T HT) as [HH [HM [HS ET]]].
  destruct (clock_text_parts (T / 3600) (T mod 3600 / 60) (T mod 60)) as [P [E0 [E1 E2]]];
    try lia.
  unfold validate_time_format. fold (time_parts (fmt_d 2 (T / 3600) ++ colon
    ++ fmt_d 2 (T mod 3600 / 60) ++ colon ++ fmt_d 2 (T mod 60))).
  rewrite P, E0, E1, E2.
  assert (Hs : f_leb (Fin 0) (Fin (inject_Z (T mod 60)))
               && f_ltb (Fin (inject_Z (T mod 60))) (Fin (inject_Z 60)) = true).
  { apply seconds_in_range. exists (inject_Z (T mod 60)). split; [reflexivity|].
    split; [change 0%Q with (inject_Z 0); rewrite <- Zle_Qle; lia|].
    rewrite <- Zlt_Qlt. lia. }
  rewrite <- !andb_assoc. rewrite Hs.
  rewrite !andb_true_iff, !Z.leb_le.
  pose proof (Qfloor_le (py_max 0 x)) as H1. pose proof (Qlt_floor (py_max 0 x)) as H2.
  fold T in H1, H2.
  split.
  - intros [_ [Hh _]].
    assert (HT' : T < 86400).
    { pose proof (Z.div_mod T 3600 ltac:(lia)).
      pose proof (Z.mod_pos_bound T 3600 ltac:(lia)). lia. }
    destruct (Qlt_le_dec x 0) as [Hneg|Hpos].
    + apply Qlt_trans with 0%Q; [assumption|reflexivity].
    + specialize (Hm Hpos). rewrite <- Hm.
      apply Qlt_le_trans with (inject_Z (T + 1)); [assumption|].
      rewrite <- Zle_Qle. lia.
  - intros Hx.
    assert (HT' : T < 86400).
    { destruct (Qlt_le_dec x 0) as [Hneg|Hpos].
      - assert (Ez : py_max 0 x = 0%Q).
        { unfold py_max. apply Qlt_le_weak, Qle_bool_iff in Hneg. now rewrite Hneg. }
        subst T. rewrite Ez. reflexivity.
      - specialize (Hm Hpos). rewrite Zlt_Qlt.
        apply Qle_lt_trans with (py_max 0 x); [assumption|]. now rewrite Hm. }
    assert (T / 3600 <= 23).
    { apply Z.lt_succ_r. apply Z.div_lt_upper_bound; lia. }
    lia.
Qed.











(** ** The estimate of the command line *)

(** When [extract_frames] accepts the request, the number of frames the
    command line announced beforehand is the planned count it returns. *)
Theorem cli_estimate_is_planned_count (v : video_info) (env : environment)
  (a : extract_args) (s e n : Z) :
  (0 <= fps v)%Q -> plan v env a = Ret (s, e, n) ->
  estimated_frames v (start_time a) (end_time a) (frame_interval a) = Ret n.
Proof.
  intros Hf Hp. pose proof (plan_bounds v env a s e n Hp) as [Hs [Hse He]].
  assert (Ht : 1 <= total_frames v) by lia.
  revert Hp. unfold plan, estimated_frames.
  destruct (cap_opened env); cbn [negb]; [|discriminate].
  assert (Es : (match start_time a with
                | [] => Ret 0
                | _ => timestamp_to_frame v (start_time a)
                end) = timestamp_to_frame v (start_time a)).
  { destruct (start_time a); reflexivity. }
  rewrite Es.
  destruct (timestamp_to_frame v (start_time a)) as [s0|] eqn:E0; cbn [bind]; [|discriminate].
  apply (timestamp_to_frame_bounds v _ _ Hf Ht) in E0.
  destruct (truthy (end_time a)).
  - destruct (timestamp_to_frame v (str_or (end_time a) [])) as [e0|] eqn:E1;
      cbn [bind]; [|discriminate].
    apply (timestamp_to_frame_bounds v _ _ Hf Ht) in E1.
    rewrite Z.max_r, Z.min_l by lia.
    destruct (e0 <=? s0); [discriminate|].
    destruct (range_len s0 (e0 + 1) (frame_interval a)); cbn [bind]; [|discriminate].
    now intros [= _ _ <-].
  - cbn [bind]. rewrite Z.max_r, Z.min_l by lia.
    destruct (total_frames v - 1 <=? s0); [discriminate|].
    destruct (range_len s0 (total_frames v - 1 + 1) (frame_interval a)); cbn [bind];
      [|discriminate].
    now intros [= _ _ <-].
Qed.

Lemma cli_estimate_is_planned_count_witness :
  (0 <= fps (video_25fps 1000))%Q /\
  plan (video_25fps 1000) (sample_env (fun _ => true) false)
    (sample_args 2 true (lit "png")) = Ret (0, 5, 3) /\
  estimated_frames (video_25fps 1000) (lit "00:00:00") (Some (lit "00:00:0.2")) 2 = Ret 3.
Proof.
  assert (Hp : plan (video_25fps 1000) (sample_env (fun _ => true) false)
                 (sample_args 2 true (lit "png")) = Ret (0, 5, 3))
    by (vm_compute; reflexivity).
  split; [vm_compute; discriminate|]. split; [exact Hp|].
  exact (cli_estimate_is_planned_count (video_25fps 1000)
           (sample_env (fun _ => true) false) (sample_args 2 true (lit "png")) 0 5 3
           (fun H : (0 * 1 ?= 25 * 1) = Gt => ltac:(discriminate H)) Hp).
Defined.

(** ** The configuration file and the recent files ([utils.py]) *)

Lemma pystr_eqb_refl (x : pystr) : PyStr.eqb x x = true.
Proof. now apply pystr_eqb_eq. Qed.

Lemma dict_get_set_same (k : pystr) (x : json) (d : dict) :
  dict_get k (dict_set k x d) = Some x.
Proof.
  induction d as [|[k' y] r IH]; cbn [dict_set dict_get].
  - now rewrite pystr_eqb_refl.
  - destruct (PyStr.eqb k k') eqn:E; cbn [dict_get]; rewrite E; [reflexivity|exact IH].
Qed.

Lemma dict_get_set_other (k k' : pystr) (x : json) (d : dict) :
  k' <> k -> dict_get k' (dict_set k x d) = dict_get k' d.
Proof.
  intros Hn. induction d as [|[k0 y] r IH]; cbn [dict_set dict_get].
  - now rewrite (pystr_eqb_neq _ _ Hn).
  - destruct (PyStr.eqb k k0) eqn:E; cbn [dict_get].
    + apply pystr_eqb_eq in E. subst k0. now rewrite (pystr_eqb_neq _ _ Hn).
    + destruct (PyStr.eqb k' k0); [reflexivity|exact IH].
Qed.

(** Merging defaults into a dictionary: its own entries win. *)
Lemma merge_lookup (defs d : dict) (k : pystr) :
  dict_get k (fold_left (fun c kv =>
                           match dict_get (fst kv) c with
                           | Some _ => c
                           | None => dict_set (fst kv) (snd kv) c
                           end) defs d)
  = match dict_get k d with
    | Some x => Some x
    | None => dict_get k defs
    end.
Proof.
  revert d. induction defs as [|[k0 x0] defs IH]; intros d; cbn [fold_left fst snd].
  - cbn. now destruct (dict_get k d).
  - rewrite IH. cbn [dict_get].
    destruct (PyStr.eqb k k0) eqn:E.
    + apply pystr_eqb_eq in E. subst k0.
      destruct (dict_get k d) eqn:Ed; [now rewrite Ed|].
      now rewrite dict_get_set_same.
    + assert (Hn : k <> k0).
      { intros ->. now rewrite pystr_eqb_refl in E. }
      destruct (dict_get k0 d); [reflexivity|].
      now rewrite dict_get_set_other.
Qed.

(** A configuration file holding a JSON object is loaded with its own
    values, every missing key taking its default; a file that is absent,
    unreadable or holds null, a boolean or a number gives the defaults. *)
Theorem load_project_config_fills_defaults :
  (forall d : dict, exists d',
     load_project_config (Holds (JDict d)) = JDict d' /\
     forall k, dict_get k d'
               = match dict_get k d with
                 | Some x => Some x
                 | None => dict_get k default_config
                 end) /\
  load_project_config Missing = JDict default_config /\
  load_project_config Unreadable = JDict default_config /\
  load_project_config (Holds JNull) = JDict default_config /\
  (forall b, load_project_config (Holds (JBool b)) = JDict default_config) /\
  (forall n, load_project_config (Holds (JNum n)) = JDict default_config).
Proof.
  split; [|repeat split; reflexivity].
  intros d. eexists. split; [reflexivity|]. intros k. apply merge_lookup.
Qed.

Lemma remove_first_incl (s : pystr) (l : list json) (j : json) :
  In j (remove_first s l) -> In j l.
Proof.
  induction l as [|x r IH]; cbn [remove_first]; [tauto|].
  destruct (json_is_str s x); cbn [In]; tauto.
Qed.

Lemma remove_first_occurrences (s : pystr) (l : list json) :
  occurrences s (remove_first s l) = (occurrences s l - 1)%nat.
Proof.
  unfold occurrences. induction l as [|x r IH]; [reflexivity|].
  cbn [remove_first filter]. destruct (json_is_str s x) eqn:E.
  - cbn [length]. lia.
  - cbn [filter]. rewrite E. exact IH.
Qed.

Lemma existsb_occurrences (s : pystr) (l : list json) :
  existsb (json_is_str s) l = false -> occurrences s l = 0%nat.
Proof.
  unfold occurrences. induction l as [|x r IH]; [reflexivity|].
  cbn [existsb filter]. destruct (json_is_str s x); [discriminate|]. exact IH.
Qed.

Lemma firstn_occurrences (s : pystr) (n : nat) (l : list json) :
  (occurrences s (firstn n l) <= occurrences s l)%nat.
Proof.
  unfold occurrences. revert n. induction l as [|x r IH]; intros [|n]; cbn; try lia.
  destruct (json_is_str s x); cbn [length]; specialize (IH n); lia.
Qed.

Lemma firstn_incl (n : nat) (l : list json) (j : json) :
  In j (firstn n l) -> In j l.
Proof.
  revert n. induction l as [|x r IH]; intros [|n]; cbn [firstn In]; try tauto.
  intros [H|H]; [now left|right; exact (IH n H)].
Qed.

(** On a configuration whose recent files are a list, [add_recent_file]
    stores a list that starts with the file, holds at most [max_recent]
    entries, all of them the file or former entries, and holds the file
    once if it was there at most once before. *)
Theorem add_recent_file_puts_file_first (file_path : pystr) (file : config_file)
  (max_recent : Z) (config : dict) (recent : list json) :
  1 <= max_recent ->
  load_project_config file = JDict config ->
  dict_get (lit "recent_files") config = Some (JList recent) ->
  exists (recent' : list json) (config' : dict),
    add_recent_file file_path file max_recent true = Done (Holds (JDict config')) /\
    dict_get (lit "recent_files") config' = Some (JList recent') /\
    (forall k, k <> lit "recent_files" -> dict_get k config' = dict_get k config) /\
    hd_error recent' = Some (JStr file_path) /\
    Z.of_nat (length recent') <= max_recent /\
    (forall j, In j recent' -> j = JStr file_path \/ In j recent) /\
    ((occurrences file_path recent <= 1)%nat -> occurrences file_path recent' = 1%nat).
Proof.
  intros Hmax Hload Hget.
  set (rest := if existsb (json_is_str file_path) recent
               then remove_first file_path recent else recent).
  exists (slice_to max_recent (JStr file_path :: rest)).
  exists (dict_set (lit "recent_files")
            (JList (slice_to max_recent (JStr file_path :: rest))) config).
  assert (Es : slice_to max_recent (JStr file_path :: rest)
               = JStr file_path :: firstn (Z.to_nat max_recent - 1) rest).
  { unfold slice_to. destruct (Z.leb_spec 0 max_recent); [|lia].
    destruct (Z.to_nat max_recent) as [|m] eqn:Em; [lia|].
    cbn [firstn]. now rewrite Nat.sub_succ, Nat.sub_0_r. }
  split; [|split; [|split; [|split; [|split; [|split]]]]].
  - unfold add_recent_file. rewrite Hload, Hget. reflexivity.
  - apply dict_get_set_same.
  - intros k Hk. now apply dict_get_set_other.
  - now rewrite Es.
  - rewrite Es. cbn [length]. pose proof (firstn_le_length (Z.to_nat max_recent - 1) rest).
    rewrite length_firstn. lia.
  - rewrite Es. intros j [<-|Hj]; [now left|]. right.
    apply firstn_incl in Hj. subst rest.
    destruct (existsb _ recent); [now apply remove_first_incl in Hj|exact Hj].
  - intros Hocc. rewrite Es. unfold occurrences at 1. cbn [filter json_is_str].
    rewrite pystr_eqb_refl. cbn [length]. f_equal.
    pose proof (firstn_occurrences file_path (Z.to_nat max_recent - 1) rest) as Hf.
    unfold occurrences in Hf at 1.
    assert (Hr : occurrences file_path rest = 0%nat).
    { subst rest. destruct (existsb _ recent) eqn:Ex.
      - rewrite remove_first_occurrences. lia.
      - now apply existsb_occurrences. }
    lia.
Qed.

Lemma add_recent_file_puts_file_first_witness :
  1 <= 2 /\
  load_project_config (Holds (JDict [(lit "recent_files",
                                      JList [JStr (lit "a.mp4"); JStr (lit "b.mp4")])]))
  = JDict ((lit "recent_files", JList [JStr (lit "a.mp4"); JStr (lit "b.mp4")])
           :: firstn 5 default_config) /\
  exists recent' config',
    add_recent_file (lit "b.mp4")
      (Holds (JDict [(lit "recent_files",
                      JList [JStr (lit "a.mp4"); JStr (lit "b.mp4")])])) 2 true
    = Done (Holds (JDict config')) /\
    dict_get (lit "recent_files") config' = Some (JList recent') /\
    hd_error recent' = Some (JStr (lit "b.mp4")) /\
    Z.of_nat (length recent') <= 2.
Proof.
  split; [lia|]. split; [reflexivity|].
  destruct (add_recent_file_puts_file_first (lit "b.mp4")
              (Holds (JDict [(lit "recent_files",
                              JList [JStr (lit "a.mp4"); JStr (lit "b.mp4")])])) 2
              ((lit "recent_files", JList [JStr (lit "a.mp4"); JStr (lit "b.mp4")])
               :: firstn 5 default_config)
              [JStr (lit "a.mp4"); JStr (lit "b.mp4")]
              ltac:(lia) eq_refl eq_refl)
    as [recent' [config' [E [G [_ [Hh [Hl _]]]]]]].
  exists recent', config'. repeat split; assumption.
Defined.

(** A configuration whose recent files are not a list makes
    [add_recent_file] fail with an exception: the file's own value wins
    over the default list, whatever its type. *)
Theorem add_recent_file_needs_a_list (file_path : pystr) (file : config_file)
  (max_recent : Z) (write_ok : bool) (config : dict) (j : json) :
  load_project_config file = JDict config ->
  dict_get (lit "recent_files") config = Some j ->
  (forall l, j <> JList l) ->
  exists err, add_recent_file file_path file max_recent write_ok = Fails err.
Proof.
  intros Hload Hget Hj. unfold add_recent_file. rewrite Hload, Hget.
  destruct j as [| | | |l|]; try (eexists; reflexivity).
  exfalso. now apply (Hj l).
Qed.

Lemma add_recent_file_needs_a_list_witness :
  load_project_config (Holds (JDict [(lit "recent_files", JNull)]))
  = JDict ((lit "recent_files", JNull) :: firstn 5 default_config) /\
  exists err,
    add_recent_file (lit "a.mp4") (Holds (JDict [(lit "recent_files", JNull)])) 10 true
    = Fails err.
Proof.
  split; [reflexivity|].
  apply (add_recent_file_needs_a_list (lit "a.mp4")
           (Holds (JDict [(lit "recent_files", JNull)])) 10 true
           ((lit "recent_files", JNull) :: firstn 5 default_config) JNull).
  - reflexivity.
  - reflexivity.
  - intros l. discriminate.
Defined.

(** ** Images for display and the output directory ([utils.py]) *)






Lemma removal_spares_others (remove_ok : pystr -> bool) (content : list pystr) :
  filter (fun f => negb (is_image_name f))
    (filter (fun f => negb (is_image_name f && remove_ok f)) content)
  = filter (fun f => negb (is_image_name f)) content.
Proof.
  induction content as [|f r IH]; [reflexivity|].
  cbn [filter]. destruct (is_image_name f) eqn:E; cbn [andb negb].
  - destruct (remove_ok f); cbn [negb filter]; [|rewrite E; cbn [negb]]; exact IH.
  - cbn [filter]. rewrite E. cbn [negb]. now rewrite IH.
Qed.

(** [clean_output_directory] never removes a name that is not an image
    name and adds none; when it returns false the directory is as it was;
    when it returns true on a listable directory, the image names left are
    those whose removal failed. *)
Theorem clean_output_directory_removes_only_images (dir_exists listable : bool)
  (content : list pystr) (confirm : option bool) (remove_ok : pystr -> bool) :
  let (cleaned, left) := clean_output_directory dir_exists listable content confirm remove_ok in
  filter (fun f => negb (is_image_name f)) left
  = filter (fun f => negb (is_image_name f)) content /\
  (forall f, In f left -> In f content) /\
  (cleaned = false -> left = content) /\
  (cleaned = true -> dir_exists = true -> listable = true ->
   forall f, In f left -> is_image_name f = true -> remove_ok f = false).
Proof.
  unfold clean_output_directory.
  destruct dir_exists; cbn [negb].
  2:{ repeat split; try tauto; discriminate. }
  destruct listable; cbn [negb].
  2:{ repeat split; try tauto; discriminate. }
  destruct (filter is_image_name content) as [|f0 files] eqn:Ef.
  { repeat split; try tauto. intros _ _ _ f Hf Hi.
    assert (Hin : In f (filter is_image_name content)) by (apply filter_In; tauto).
    rewrite Ef in Hin. destruct Hin. }
  assert (Hrun : let left := filter (fun f => negb (is_image_name f && remove_ok f)) content in
                 filter (fun f => negb (is_image_name f)) left
                 = filter (fun f => negb (is_image_name f)) content /\
                 (forall f, In f left -> In f content) /\
                 (true = false -> left = content) /\
                 (true = true -> true = true -> true = true ->
                  forall f, In f left -> is_image_name f = true -> remove_ok f = false)).
  { cbv zeta. split; [apply removal_spares_others|].
    split; [intros f Hf; apply filter_In in Hf; tauto|].
    split; [discriminate|].
    intros _ _ _ f Hf Hi. apply filter_In in Hf. destruct Hf as [_ Hf].
    rewrite Hi in Hf. cbn [andb] in Hf. now destruct (remove_ok f). }
  destruct confirm as [[|]|]; [exact Hrun| |exact Hrun].
  repeat split; try tauto; discriminate.
Qed.
